(** * Monte Carlo calibration of heteroscedasticity tests

    A shallow embedding of [examples/heteroscedasticity_calibration.py]:
    the two synthetic-data generators, the calibration of one test
    ([calibrate_test]), the calibration suite ([run_full_calibration]) and
    the sweep over effect sizes ([power_curve]).

    Python floats are IEEE 754 binary64 numbers: they are Rocq's primitive
    floats, whose operations the kernel computes and [FloatAxioms] specifies
    by [SpecFloat].  Python integers are [Z].  The script's effects (the
    process-wide numpy random generator, the text written by [print], raised
    exceptions) are threaded through a small state-and-exception monad. *)

From Stdlib Require Import ZArith List Bool String Ascii Lia Floats.
From Stdlib Require Import DecimalString.
Import ListNotations.

Set Warnings "-inexact-float".

Local Open Scope Z_scope.

(** ** The Python runtime *)

Module Py.

(** An exception: its class name and its message ([str(e)]). *)
Inductive exn : Type :=
  Exception (cls msg : string).

Definition exn_msg (e : exn) : string :=
  match e with Exception _ msg => msg end.

Definition ZeroDivisionError : exn :=
  Exception "ZeroDivisionError" "division by zero".
Definition ValueError (msg : string) : exn :=
  Exception "ValueError" msg.
Definition OverflowError (msg : string) : exn :=
  Exception "OverflowError" msg.

(** What evaluating an expression yields: a value, or a raised exception. *)
Inductive outcome (A : Type) : Type :=
| Ok (a : A)
| Raise (e : exn).
Arguments Ok {A} a.
Arguments Raise {A} e.

(** [range(n)]: empty when [n <= 0]. *)
Definition range (n : Z) : list Z :=
  map Z.of_nat (seq 0 (Z.to_nat n)).

(** An integer as a binary64 datum of unbounded mantissa. *)
Definition int_to_SF (z : Z) : spec_float :=
  match z with
  | Z0 => S754_zero false
  | Zpos p => S754_finite false p 0
  | Zneg p => S754_finite true p 0
  end.

(** [a / b] on two integers: ZeroDivisionError when [b] is zero, else
    the binary64 number nearest to the exact quotient (CPython rounds the
    true quotient once, whatever the size of the operands). *)
Definition quotient (a b : Z) : float :=
  SF2Prim (SF64div (int_to_SF a) (int_to_SF b)).
Definition int_truediv (a b : Z) : outcome float :=
  if b =? 0 then Raise ZeroDivisionError
  else Ok (quotient a b).

(** [float(z)]: the nearest binary64 number. *)
Definition float_of_int (z : Z) : float :=
  SF2Prim (binary_normalize prec emax z 0 false).

(** [int(x)] on a float: truncation toward zero. *)
Definition int_of_float (x : float) : outcome Z :=
  match Prim2SF x with
  | S754_zero _ => Ok 0
  | S754_finite s m e =>
      let a := match e with
               | Zneg p => Z.shiftr (Zpos m) (Zpos p)
               | _ => Z.shiftl (Zpos m) e
               end in
      Ok (if s then - a else a)
  | S754_infinity _ => Raise (OverflowError "cannot convert float infinity to integer")
  | S754_nan => Raise (ValueError "cannot convert float NaN to integer")
  end.

(** Text. *)
Definition nl : string := String (ascii_of_nat 10) EmptyString.

Fixpoint str_repeat (s : string) (k : nat) : string :=
  match k with
  | O => EmptyString
  | S k' => (s ++ str_repeat s k')%string
  end.

(** [s * k] for an integer [k]: empty when [k <= 0]. *)
Definition str_mul (s : string) (k : Z) : string := str_repeat s (Z.to_nat k).

Definition upper_ascii (c : ascii) : ascii :=
  let k := nat_of_ascii c in
  if ((97 <=? k) && (k <=? 122))%nat then ascii_of_nat (k - 32) else c.

(** [s.upper()], on ASCII text. *)
Fixpoint upper (s : string) : string :=
  match s with
  | EmptyString => EmptyString
  | String c r => String (upper_ascii c) (upper r)
  end.

(** [f"{s:<w}"]: left-justified in a field of width [w]. *)
Definition ljust (w : nat) (s : string) : string :=
  (s ++ str_repeat " " (w - String.length s))%string.

(** [str(z)] for an integer. *)
Definition str_int (z : Z) : string :=
  NilZero.string_of_int (Z.to_int z).

(** [max(l, key=key)] on float keys: the first element is kept until a
    strictly greater key is met; ValueError on the empty list. *)
Definition max_by {A : Type} (key : A -> float) (l : list A) : outcome A :=
  match l with
  | [] => Raise (ValueError "max() iterable argument is empty")
  | x :: xs =>
      Ok (fold_left (fun best y => if (key best <? key y)%float then y else best) xs x)
  end.

End Py.
Import Py.

(** ** numpy *)

Definition ndarray1 : Type := list float.
Definition ndarray2 : Type := list (list float).

(** What the script takes from numpy and this file leaves open: the
    elementwise sine, and the legacy global generator behind
    [np.random.seed] and [np.random.randn].  [random_seed s] is the state
    [np.random.seed(s)] installs, whatever the state before; [random_gauss]
    draws one standard normal deviate and advances the state.  Sample
    counts are natural numbers and every integer is taken as a seed: numpy
    raises on a negative count and on a seed outside [0, 2^32), which the
    script never passes for fewer than 2^32 - 100000 trials. *)
Class Numpy : Type := {
  sin : float -> float;
  rng_state : Type;
  random_seed : Z -> rng_state;
  random_gauss : rng_state -> float * rng_state
}.

Module Np.

(** [np.pi]. *)
Definition pi : float := 0x1.921fb54442d18p+1%float.

(** [np.arange(0, num)] as floats. *)
Definition arange (num : nat) : ndarray1 :=
  map (fun i => float_of_int (Z.of_nat i)) (seq 0 num).

(** [y[-1] = v]. *)
Fixpoint set_last (y : ndarray1) (v : float) : ndarray1 :=
  match y with
  | [] => []
  | [_] => [v]
  | a :: r => a :: set_last r v
  end.

(** [np.linspace(start, stop, num)] with the default [endpoint=True], as
    numpy computes it: the indices scaled by the step, shifted by
    [start], the last point overwritten with [stop]. *)
Definition linspace (start stop : float) (num : nat) : ndarray1 :=
  let div := (num - 1)%nat in
  let delta := (stop - start)%float in
  let y := arange num in
  let y :=
    if (0 <? div)%nat then
      let step := (delta / float_of_int (Z.of_nat div))%float in
      if (step =? 0)%float
      then map (fun v => (v / float_of_int (Z.of_nat div) * delta)%float) y
      else map (fun v => (v * step)%float) y
    else map (fun v => (v * delta)%float) y in
  let y := map (fun v => (v + start)%float) y in
  if (1 <? num)%nat then set_last y stop else y.

(** [a.reshape(-1, 1)] and [X.ravel()]. *)
Definition reshape_col (a : ndarray1) : ndarray2 := map (fun v => [v]) a.
Definition ravel (X : ndarray2) : ndarray1 := List.concat X.

(** Elementwise operations on arrays of one length. *)
Fixpoint map2 (f : float -> float -> float) (a b : ndarray1) : ndarray1 :=
  match a, b with
  | x :: a', y :: b' => f x y :: map2 f a' b'
  | _, _ => []
  end.

Definition add (a b : ndarray1) : ndarray1 := map2 PrimFloat.add a b.
Definition mul (a b : ndarray1) : ndarray1 := map2 PrimFloat.mul a b.
Definition scale (c : float) (a : ndarray1) : ndarray1 := map (fun v => (c * v)%float) a.
Definition scale_r (a : ndarray1) (c : float) : ndarray1 := map (fun v => (v * c)%float) a.
Definition shift (c : float) (a : ndarray1) : ndarray1 := map (fun v => (c + v)%float) a.

(** [n] successive draws of the generator: the array [np.random.randn(n)]
    and the state it leaves. *)
Fixpoint draws `{Numpy} (n : nat) (st : rng_state) : ndarray1 * rng_state :=
  match n with
  | O => ([], st)
  | S n' =>
      let '(z, st1) := random_gauss st in
      let '(zs, st2) := draws n' st1 in
      (z :: zs, st2)
  end.

End Np.

(** ** The collaborators of the script *)

(** The [kernel_regression] package: [fit bandwidth X y] stands for
    [NadarayaWatson(bandwidth=bandwidth).fit(X, y)], and
    [heteroscedasticity_test model X y test alpha] for the call of that name;
    the script reads only [is_heteroscedastic] of its result.  Either may
    raise. *)
Class KernelRegression : Type := {
  model : Type;
  fit : float -> ndarray2 -> ndarray1 -> outcome model;
  test_result : Type;
  is_heteroscedastic : test_result -> bool;
  heteroscedasticity_test :
    model -> ndarray2 -> ndarray1 -> string -> float -> outcome test_result
}.

(** Python's rendering of floats in f-strings: [format_percent p x] is
    [f"{x:.p%}"], [format_fixed p x] is [f"{x:.pf}"], [str_float x] is
    [f"{x}"]. *)
Class Formatting : Type := {
  format_percent : nat -> float -> string;
  format_fixed : nat -> float -> string;
  str_float : float -> string
}.

(** ** State and effects *)

Section Effects.

Context {NP : Numpy}.

(** The state a call can touch: numpy's global generator and the text
    written so far, one entry per [print], in the order written. *)
Record world : Type := {
  rng : rng_state;
  stdout : list string
}.

Definition M (A : Type) : Type := world -> outcome A * world.

Definition ret {A : Type} (a : A) : M A := fun w => (Ok a, w).

Definition bind {A B : Type} (m : M A) (k : A -> M B) : M B :=
  fun w =>
    match m w with
    | (Ok a, w1) => k a w1
    | (Raise e, w1) => (Raise e, w1)
    end.

(** An expression that may raise. *)
Definition lift {A : Type} (o : outcome A) : M A := fun w => (o, w).

(** [print(s)] and [print(s, end="")]. *)
Definition print (s : string) : M unit :=
  fun w => (Ok tt, {| rng := rng w; stdout := (stdout w ++ [(s ++ nl)%string])%list |}).
Definition print_noend (s : string) : M unit :=
  fun w => (Ok tt, {| rng := rng w; stdout := (stdout w ++ [s])%list |}).

(** [np.random.seed(seed)] and [np.random.randn(n)]. *)
Definition np_random_seed (seed : Z) : M unit :=
  fun w => (Ok tt, {| rng := random_seed seed; stdout := stdout w |}).
Definition np_random_randn (n : nat) : M ndarray1 :=
  fun w => let '(zs, st) := Np.draws n (rng w) in
           (Ok zs, {| rng := st; stdout := stdout w |}).

(** [try: body  except Exception as e: handler e]. *)
Definition try_except {A : Type} (body : M A) (handler : exn -> M A) : M A :=
  fun w =>
    match body w with
    | (Ok a, w1) => (Ok a, w1)
    | (Raise e, w1) => handler e w1
    end.

(** [for x in l: acc = body x acc]. *)
Fixpoint for_each {A S : Type} (l : list A) (body : A -> S -> M S) (acc : S) : M S :=
  match l with
  | [] => ret acc
  | x :: r => bind (body x acc) (fun acc1 => for_each r body acc1)
  end.

(** [write lines w]: the world once [lines] are written. *)
Definition write (lines : list string) (w : world) : world :=
  {| rng := rng w; stdout := (stdout w ++ lines)%list |}.

(** [stdout] only grows. *)
Definition extends (w w' : world) : Prop :=
  exists d, stdout w' = (stdout w ++ d)%list.

End Effects.

Arguments world {NP}.
Arguments M {NP} A.

Declare Scope script_scope.
Delimit Scope script_scope with script.
Notation "x <- m ;; k" := (bind m (fun x => k))
  (at level 61, m at next level, right associativity) : script_scope.
Notation "' pat <- m ;; k" := (bind m (fun x => match x with pat => k end))
  (at level 61, pat pattern, m at next level, right associativity) : script_scope.
Notation "m ;; k" := (bind m (fun _ => k))
  (at level 61, right associativity) : script_scope.
Local Open Scope script_scope.

Section Script.

Context {NP : Numpy} {KR : KernelRegression} {FMT : Formatting}.

Local Open Scope string_scope.

(** ** The data generators *)

(** [generate_nonlinear_homoscedastic(n, seed)]. *)
Definition generate_nonlinear_homoscedastic (n : nat) (seed : Z)
  : M (ndarray2 * ndarray1) :=
  np_random_seed seed ;;
  let X := Np.reshape_col (Np.linspace 0 1 n) in
  let y_true := map sin (Np.scale (2 * Np.pi) (Np.ravel X)) in
  z <- np_random_randn n ;;
  let noise := Np.scale_r z 0.2 in
  ret (X, Np.add y_true noise).

(** [generate_trumpet(n, seed, strength)]. *)
Definition generate_trumpet (n : nat) (seed : Z) (strength : float)
  : M (ndarray2 * ndarray1) :=
  np_random_seed seed ;;
  let X := Np.reshape_col (Np.linspace 0 1 n) in
  let y_true := map sin (Np.scale (2 * Np.pi) (Np.ravel X)) in
  let sigma := Np.shift 0.1 (Np.scale strength (Np.ravel X)) in
  z <- np_random_randn n ;;
  let noise := Np.mul z sigma in
  ret (X, Np.add y_true noise).

(** ** Calibration of one test *)

Record CalibrationResult : Type := {
  test_name : string;
  nominal_alpha : float;
  empirical_size : float;
  size_calibrated : bool;
  power : float;
  power_adequate : bool
}.

(** The seed of trial [trial] in the size arm and in the power arm. *)
Definition size_arm_seed (trial : Z) : Z := trial.
Definition power_arm_seed (trial : Z) : Z := trial + 100000.

(** [0.03 <= x <= 0.10], [0.04 <= x <= 0.07] and [x >= 0.80]. *)
Definition size_band (x : float) : bool := ((0.03 <=? x) && (x <=? 0.10))%float.
Definition perfect_band (x : float) : bool := ((0.04 <=? x) && (x <=? 0.07))%float.
Definition power_band (x : float) : bool := (0.80 <=? x)%float.

Definition warning_line (trial : Z) (e : exn) : string :=
  ("      Warning: Trial " ++ str_int trial ++ " failed: " ++ exn_msg e)%string.

(** The first loop of [calibrate_test]. *)
Definition size_arm (name : string) (n_samples : nat) (n_trials : Z)
    (alpha bandwidth : float) : M Z :=
  for_each (range n_trials) (fun trial false_positives =>
    '(X, y) <- generate_nonlinear_homoscedastic n_samples (size_arm_seed trial) ;;
    model <- lift (fit bandwidth X y) ;;
    try_except
      (result <- lift (heteroscedasticity_test model X y name alpha) ;;
       if is_heteroscedastic result
       then ret (false_positives + 1)
       else ret false_positives)
      (fun e =>
         print (warning_line trial e) ;;
         ret false_positives)) 0.

(** The second loop of [calibrate_test]. *)
Definition power_arm (name : string) (n_samples : nat) (n_trials : Z)
    (alpha bandwidth : float) : M Z :=
  for_each (range n_trials) (fun trial true_positives =>
    '(X, y) <- generate_trumpet n_samples (power_arm_seed trial) 1.0 ;;
    model <- lift (fit bandwidth X y) ;;
    try_except
      (result <- lift (heteroscedasticity_test model X y name alpha) ;;
       if is_heteroscedastic result
       then ret (true_positives + 1)
       else ret true_positives)
      (fun _ => ret true_positives)) 0.

(** [calibrate_test(test_name, n_samples, n_trials, alpha, bandwidth)]. *)
Definition calibrate_test (name : string) (n_samples : nat) (n_trials : Z)
    (alpha bandwidth : float) : M CalibrationResult :=
  print (nl ++ str_repeat "=" 60) ;;
  print ("CALIBRATING: " ++ upper name) ;;
  print (str_repeat "=" 60) ;;
  print ("  n=" ++ str_int (Z.of_nat n_samples) ++ ", trials=" ++ str_int n_trials
         ++ ", alpha=" ++ str_float alpha) ;;
  print (nl ++ "  [1] NOMINAL SIZE TEST (Homoscedastic data)") ;;
  print ("      Target: False positive rate ~ " ++ format_percent 0 alpha
         ++ " (range: 4-7%)") ;;
  false_positives <- size_arm name n_samples n_trials alpha bandwidth ;;
  es <- lift (int_truediv false_positives n_trials) ;;
  let calibrated := size_band es in
  let size_perfect := perfect_band es in
  print ("      Result: " ++ format_percent 1 es ++ " false positive rate") ;;
  print_noend ("      Status: " ++ (if calibrated then "CALIBRATED" else "OVERSIZED")) ;;
  (if size_perfect then print " (EXCELLENT)"
   else if calibrated then print " (ACCEPTABLE)"
   else print (" (REJECT - too " ++ (if (0.10 <? es)%float then "high" else "low") ++ ")")) ;;
  print (nl ++ "  [2] STATISTICAL POWER TEST (Trumpet data, moderate effect)") ;;
  print "      Target: Detection rate > 80%" ;;
  true_positives <- power_arm name n_samples n_trials alpha bandwidth ;;
  pw <- lift (int_truediv true_positives n_trials) ;;
  let adequate := power_band pw in
  print ("      Result: " ++ format_percent 1 pw ++ " detection rate") ;;
  print ("      Status: " ++ (if adequate then "ADEQUATE" else "UNDERPOWERED")) ;;
  ret {| test_name := name;
         nominal_alpha := alpha;
         empirical_size := es;
         size_calibrated := calibrated;
         power := pw;
         power_adequate := adequate |}.

(** ** The calibration suite *)

(** [passing_tests], the key of [max], [best] and [oversized] in
    [run_full_calibration]. *)
Definition passes (r : CalibrationResult) : bool :=
  size_calibrated r && power_adequate r.
Definition passing_tests (results : list CalibrationResult) : list CalibrationResult :=
  filter passes results.
Definition margin (r : CalibrationResult) : float :=
  (power r - empirical_size r)%float.
Definition oversized (results : list CalibrationResult) : list CalibrationResult :=
  filter (fun r => negb (size_calibrated r)) results.

Definition summary_line (r : CalibrationResult) : string :=
  let size_status :=
    (format_percent 1 (empirical_size r)
       ++ (if size_calibrated r then " OK" else " FAIL"))%string in
  let power_status :=
    (format_percent 1 (power r)
       ++ (if power_adequate r then " OK" else " LOW"))%string in
  let overall := if passes r then "PASS" else "FAIL" in
  (ljust 25 (test_name r) ++ " " ++ ljust 12 size_status ++ " "
     ++ ljust 12 power_status ++ " " ++ overall)%string.

Definition oversized_line (r : CalibrationResult) : string :=
  ("  - " ++ test_name r ++ ": " ++ format_percent 1 (empirical_size r)
     ++ " false positive rate")%string.

(** The part of [run_full_calibration] under the heading ANALYSIS. *)
Definition analysis (results : list CalibrationResult) : M unit :=
  let passing := passing_tests results in
  match passing with
  | _ :: _ =>
      best <- lift (max_by margin passing) ;;
      print (nl ++ "Best calibrated test: " ++ test_name best) ;;
      print ("  - False positive rate: " ++ format_percent 1 (empirical_size best)
             ++ " (target: 5%)") ;;
      print ("  - Power: " ++ format_percent 1 (power best) ++ " (target: >80%)")
  | [] =>
      print (nl ++ "No test passed both criteria.") ;;
      let over := oversized results in
      match over with
      | _ :: _ =>
          print (nl ++ "Oversized tests (too many false positives):") ;;
          for_each over (fun r _ => print (oversized_line r)) tt ;;
          print (nl ++ "Note: Kernel regression residuals are correlated, which can") ;;
          print "inflate Type I error for tests designed for linear models."
      | [] => ret tt
      end
  end.

Definition tests : list string := ["breusch_pagan"; "white"; "dette_munk_wagner"].

(** [run_full_calibration()]. *)
Definition run_full_calibration : M (list CalibrationResult) :=
  print (nl ++ str_repeat "=" 60) ;;
  print "HETEROSCEDASTICITY TEST CALIBRATION SUITE" ;;
  print (str_repeat "=" 60) ;;
  print (nl ++ "Benchmark: test calibration") ;;
  print "- Nominal Size: False positive rate should be 4-7% at alpha=0.05" ;;
  print "- Power: Detection rate should be >80% for moderate effect" ;;
  print (nl ++ "Challenge: Nonlinear mean (sin wave) with constant variance") ;;
  print "- Naive tests mistake the curve for heteroscedasticity" ;;
  print "- Dette-Munk-Wagner is designed to handle this case" ;;
  results <- for_each tests (fun name results =>
               result <- calibrate_test name 200 500 0.05 0.1 ;;
               ret (results ++ [result])%list) [] ;;
  print (nl ++ str_repeat "=" 60) ;;
  print "CALIBRATION SUMMARY" ;;
  print (str_repeat "=" 60) ;;
  print (nl ++ ljust 25 "Test" ++ " " ++ ljust 12 "Size" ++ " " ++ ljust 12 "Power"
         ++ " " ++ "Overall") ;;
  print (str_repeat "-" 60) ;;
  for_each results (fun r _ => print (summary_line r)) tt ;;
  print (str_repeat "-" 60) ;;
  print (nl ++ str_repeat "=" 60) ;;
  print "ANALYSIS" ;;
  print (str_repeat "=" 60) ;;
  analysis results ;;
  ret results.

(** ** The power curve *)

(** One pass of the inner loop of [power_curve]: the detections among
    [n_trials] trials at one strength. *)
Definition sweep_arm (name : string) (strength : float) (n_samples : nat)
    (n_trials : Z) (alpha bandwidth : float) : M Z :=
  for_each (range n_trials) (fun trial detections =>
    '(X, y) <- (if (strength =? 0)%float
                then generate_nonlinear_homoscedastic n_samples trial
                else generate_trumpet n_samples trial strength) ;;
    model <- lift (fit bandwidth X y) ;;
    result <- lift (heteroscedasticity_test model X y name alpha) ;;
    if is_heteroscedastic result
    then ret (detections + 1)
    else ret detections) 0.

(** The outer loop of [power_curve], with the locals [strengths],
    [n_samples], [n_trials], [bandwidth] and [alpha] as parameters.  The
    Python function prints each rate and returns nothing; the model also
    hands back the pairs (strength, rate) it printed, in order. *)
Definition power_curve_sweep (name : string) (strengths : list float)
    (n_samples : nat) (n_trials : Z) (bandwidth alpha : float)
  : M (list (float * float)) :=
  for_each strengths (fun strength points =>
    detections <- sweep_arm name strength n_samples n_trials alpha bandwidth ;;
    rate <- lift (int_truediv detections n_trials) ;;
    k <- lift (int_of_float (rate * 40)%float) ;;
    let bar := str_mul "#" k in
    print (ljust 12 (format_fixed 2 strength) ++ " "
           ++ ljust 20 (format_percent 1 rate) ++ " " ++ bar) ;;
    ret (points ++ [(strength, rate)])%list) [].

(** [power_curve(test_name)]. *)
Definition power_curve (name : string) : M (list (float * float)) :=
  print (nl ++ str_repeat "=" 60) ;;
  print ("POWER CURVE FOR " ++ upper name) ;;
  print (str_repeat "=" 60) ;;
  let strengths := [0.0; 0.25; 0.5; 0.75; 1.0; 1.5; 2.0]%float in
  let n_samples := 200%nat in
  let n_trials := 200 in
  let bandwidth := 0.1%float in
  let alpha := 0.05%float in
  print (nl ++ "Strength = 0 means constant variance (should reject ~5%)") ;;
  print "Strength = 1 means variance doubles from x=0 to x=1" ;;
  print (nl ++ ljust 12 "Strength" ++ " " ++ ljust 20 "Detection Rate" ++ " " ++ "Bar") ;;
  print (str_repeat "-" 50) ;;
  points <- power_curve_sweep name strengths n_samples n_trials bandwidth alpha ;;
  print (str_repeat "-" 50) ;;
  print "Note: A well-calibrated test has ~5% at strength=0," ;;
  print "      increasing smoothly to >95% at high strength." ;;
  ret points.

(** The script run as a program: the block under
    [if __name__ == "__main__"]. *)
Definition main : M unit :=
  results <- run_full_calibration ;;
  print nl ;;
  points <- power_curve "dette_munk_wagner" ;;
  ret tt.

End Script.

(** ** Sample collaborators

    Small executable stand-ins for numpy's generator, the regression
    package and the float formatter, to run the script on concrete
    inputs. *)

Module Sample.

Local Open Scope float_scope.

(** A linear congruential generator; each draw is a multiple of 1/500
    between -2 and 2.  The sine is Bhaskara's rational approximation,
    mirrored on the second half-period. *)
Definition lcg (s : Z) : Z := ((1103515245 * s + 12345) mod 2147483648)%Z.

Definition bhaskara (x : float) : float :=
  let t := if x <? Np.pi then x else x - Np.pi in
  let p := 16 * t * (Np.pi - t) / (5 * Np.pi * Np.pi - 4 * t * (Np.pi - t)) in
  if x <? Np.pi then p else - p.

#[export] Instance numpy : Numpy := {|
  sin := bhaskara;
  rng_state := Z;
  random_seed := fun s => lcg (s + 7)%Z;
  random_gauss := fun st =>
    let st1 := lcg st in
    (float_of_int ((st1 / 65536) mod 2001 - 1000)%Z / 500, st1)
|}.

Fixpoint sum_sq (a : ndarray1) : float :=
  match a with
  | [] => 0
  | v :: r => v * v + sum_sq r
  end.

Definition known_test (name : string) : bool :=
  existsb (String.eqb name)
    ["breusch_pagan"; "white"; "goldfeld_quandt"; "dette_munk_wagner"]%string.

(** Second differences: what is left of the responses once a smooth
    mean is taken out. *)
Fixpoint second_diffs (y : ndarray1) : ndarray1 :=
  match y with
  | a :: r =>
      match r with
      | b :: c :: _ => (b - (a + c) / 2) :: second_diffs r
      | _ => []
      end
  | [] => []
  end.

(** The "fit" keeps the responses; the "test" rejects when the second
    half of their second differences carries more than [1 + 20 alpha]
    times the energy of the first half, and raises on a test name it does
    not know. *)
Definition spread_test (y : ndarray1) (name : string) (alpha : float)
  : outcome bool :=
  if known_test name then
    let d := second_diffs y in
    let h := Nat.div (List.length d) 2 in
    Ok ((1 + 20 * alpha) * sum_sq (firstn h d) <? sum_sq (skipn h d))
  else Raise (ValueError ("Unknown test: " ++ name)).

#[export] Instance regression : KernelRegression := {|
  model := ndarray1;
  fit := fun _ _ y => Ok y;
  test_result := bool;
  is_heteroscedastic := fun b => b;
  heteroscedasticity_test := fun m _ _ name alpha => spread_test m name alpha
|}.



(** Floats are written as the integer part of a scaled value. *)
Definition scaled (k : Z) (x : float) : string :=
  match int_of_float (x * float_of_int k) with
  | Ok z => str_int z
  | Raise _ => "nan"
  end.

#[export] Instance formatting : Formatting := {|
  format_percent := fun p x => (scaled (100 * 10 ^ Z.of_nat p) x ++ "e-" ++ str_int (Z.of_nat p) ++ "%")%string;
  format_fixed := fun p x => (scaled (10 ^ Z.of_nat p) x ++ "e-" ++ str_int (Z.of_nat p))%string;
  str_float := fun x => (scaled 1000000 x ++ "e-6")%string
|}.

Definition world0 : world := {| rng := 0%Z; stdout := [] |}.



Definition no_result : CalibrationResult :=
  {| test_name := ""; nominal_alpha := 0; empirical_size := 0;
     size_calibrated := false; power := 0; power_adequate := false |}.

End Sample.

(** Runs of the script on the sample collaborators. *)

Module Run.

Import Sample.

(** What [calibrate_test("white", 40, 40, 0.05, 0.1)] returns with the
    sample package. *)
Definition result :=
  Eval vm_compute in
    match fst (@calibrate_test numpy regression formatting
                 "white" 40 40 0.05 0.1 world0) with
    | Ok r => r
    | Raise _ => no_result
    end.

(** What the sweep of [power_curve] returns over three strengths, with
    40 samples and 40 trials. *)
Definition points :=
  Eval vm_compute in
    match fst (@power_curve_sweep numpy regression formatting
                 "white" [0; 0.5; 2]%float 40 40 0.1 0.05 world0) with
    | Ok pts => pts
    | Raise _ => []
    end.


End Run.

(** ** What one trial amounts to

    Both generators reseed numpy's generator before drawing, so the dataset
    of a trial is a function of its arguments; the definitions below name
    that function and what the fit and the test make of it. *)

Section Trials.

Context {NP : Numpy} {KR : KernelRegression}.

(** The grid and the mean both generators share. *)
Definition grid (n : nat) : ndarray1 := Np.linspace 0 1 n.
Definition mean_curve (n : nat) : ndarray1 :=
  map sin (Np.scale (2 * Np.pi) (grid n)).

(** The deviates [np.random.randn(n)] yields right after
    [np.random.seed(seed)], and the state they leave. *)
Definition seeded_draws (n : nat) (seed : Z) : ndarray1 :=
  fst (Np.draws n (random_seed seed)).
Definition seeded_state (n : nat) (seed : Z) : rng_state :=
  snd (Np.draws n (random_seed seed)).

Definition homoscedastic_data (n : nat) (seed : Z) : ndarray2 * ndarray1 :=
  (Np.reshape_col (grid n),
   Np.add (mean_curve n) (Np.scale_r (seeded_draws n seed) 0.2)).

Definition trumpet_data (n : nat) (seed : Z) (strength : float)
  : ndarray2 * ndarray1 :=
  (Np.reshape_col (grid n),
   Np.add (mean_curve n)
     (Np.mul (seeded_draws n seed) (Np.shift 0.1 (Np.scale strength (grid n))))).

(** The world after a generator call. *)
Definition reseeded (n : nat) (seed : Z) (w : world) : world :=
  {| rng := seeded_state n seed; stdout := stdout w |}.

(** How a trial ends: the fit raised, the test raised, or the test decided. *)
Inductive verdict : Type :=
| FitRaised (e : exn)
| TestRaised (e : exn)
| Decided (rejected : bool).

Definition run_trial (name : string) (alpha bandwidth : float)
    (d : ndarray2 * ndarray1) : verdict :=
  let '(X, y) := d in
  match fit bandwidth X y with
  | Raise e => FitRaised e
  | Ok m =>
      match heteroscedasticity_test m X y name alpha with
      | Raise e => TestRaised e
      | Ok r => Decided (is_heteroscedastic r)
      end
  end.

Definition size_trial (name : string) (n_samples : nat) (alpha bandwidth : float)
    (trial : Z) : verdict :=
  run_trial name alpha bandwidth (homoscedastic_data n_samples (size_arm_seed trial)).

Definition power_trial (name : string) (n_samples : nat) (alpha bandwidth : float)
    (trial : Z) : verdict :=
  run_trial name alpha bandwidth (trumpet_data n_samples (power_arm_seed trial) 1.0).

Definition sweep_trial (name : string) (strength : float) (n_samples : nat)
    (alpha bandwidth : float) (trial : Z) : verdict :=
  run_trial name alpha bandwidth
    (if (strength =? 0)%float then homoscedastic_data n_samples trial
     else trumpet_data n_samples trial strength).

Definition rejected (v : verdict) : bool :=
  match v with Decided true => true | _ => false end.
Definition fit_ok (v : verdict) : bool :=
  match v with FitRaised _ => false | _ => true end.
Definition decided (v : verdict) : bool :=
  match v with Decided _ => true | _ => false end.

(** The rejections among the trials [l]. *)
Definition tally (V : Z -> verdict) (l : list Z) : Z :=
  Z.of_nat (List.length (filter (fun t => rejected (V t)) l)).

(** Which exceptions a loop lets through, and what it prints, given how
    the trial ended: the calibration loops let the exceptions of the fit
    through, the sweep those of the fit and of the test; only the size
    arm prints. *)
Definition lets_fit_through (v : verdict) : option exn :=
  match v with FitRaised e => Some e | _ => None end.
Definition lets_all_through (v : verdict) : option exn :=
  match v with FitRaised e | TestRaised e => Some e | Decided _ => None end.
Definition says_warning (t : Z) (v : verdict) : list string :=
  match v with TestRaised e => [(warning_line t e ++ nl)%string] | _ => [] end.
Definition says_nothing (t : Z) (v : verdict) : list string := [].

Definition quiet (through : verdict -> option exn) (v : verdict) : bool :=
  match through v with None => true | Some _ => false end.

(** The warnings the size arm prints over the trials [l]. *)
Definition warnings (V : Z -> verdict) (l : list Z) : list string :=
  flat_map (fun t => says_warning t (V t)) l.

(** The seeds each arm of a calibration with [n_trials] trials uses. *)
Definition size_arm_seeds (n_trials : Z) : list Z := map size_arm_seed (range n_trials).
Definition power_arm_seeds (n_trials : Z) : list Z := map power_arm_seed (range n_trials).

(** The same package with another test function. *)
Definition with_test
    (test' : model -> ndarray2 -> ndarray1 -> string -> float -> outcome test_result)
  : KernelRegression :=
  {| model := model;
     fit := fit;
     test_result := test_result;
     is_heteroscedastic := is_heteroscedastic;
     heteroscedasticity_test := test' |}.

End Trials.

(** ** What the script writes and returns

    The lines each function prints and the values it builds, as functions
    of the trials' verdicts. *)

Section Reports.

Context {NP : Numpy} {KR : KernelRegression} {FMT : Formatting}.

Local Open Scope string_scope.

(** The lines [calibrate_test] writes before the size arm, between the
    arms and after the power arm. *)
Definition header_lines (name : string) (n_samples : nat) (n_trials : Z)
    (alpha : float) : list string :=
  [ (nl ++ str_repeat "=" 60) ++ nl;
    ("CALIBRATING: " ++ upper name) ++ nl;
    str_repeat "=" 60 ++ nl;
    ("  n=" ++ str_int (Z.of_nat n_samples) ++ ", trials=" ++ str_int n_trials
      ++ ", alpha=" ++ str_float alpha) ++ nl;
    (nl ++ "  [1] NOMINAL SIZE TEST (Homoscedastic data)") ++ nl;
    ("      Target: False positive rate ~ " ++ format_percent 0 alpha
      ++ " (range: 4-7%)") ++ nl ].

Definition size_lines (es : float) : list string :=
  [ ("      Result: " ++ format_percent 1 es ++ " false positive rate") ++ nl;
    "      Status: " ++ (if size_band es then "CALIBRATED" else "OVERSIZED");
    (if perfect_band es then " (EXCELLENT)"
     else if size_band es then " (ACCEPTABLE)"
     else " (REJECT - too " ++ (if (0.10 <? es)%float then "high" else "low") ++ ")")
      ++ nl;
    (nl ++ "  [2] STATISTICAL POWER TEST (Trumpet data, moderate effect)") ++ nl;
    "      Target: Detection rate > 80%" ++ nl ].

Definition power_lines (pw : float) : list string :=
  [ ("      Result: " ++ format_percent 1 pw ++ " detection rate") ++ nl;
    ("      Status: " ++ (if power_band pw then "ADEQUATE" else "UNDERPOWERED")) ++ nl ].

(** The record [calibrate_test] builds from the two rates. *)
Definition result_of (name : string) (alpha es pw : float) : CalibrationResult :=
  {| test_name := name;
     nominal_alpha := alpha;
     empirical_size := es;
     size_calibrated := size_band es;
     power := pw;
     power_adequate := power_band pw |}.

(** The text a completed calibration has written. *)
Definition calibration_lines (name : string) (n_samples : nat) (n_trials : Z)
    (alpha bandwidth : float) : list string :=
  let Vs := size_trial name n_samples alpha bandwidth in
  let Vp := power_trial name n_samples alpha bandwidth in
  (header_lines name n_samples n_trials alpha
     ++ warnings Vs (range n_trials)
     ++ size_lines (quotient (tally Vs (range n_trials)) n_trials)
     ++ power_lines (quotient (tally Vp (range n_trials)) n_trials))%list.

(** The detection rate of a strength whose trials all decide, and whether
    they all do. *)
Definition sweep_rate (name : string) (n_samples : nat) (n_trials : Z)
    (bandwidth alpha : float) (strength : float) : float :=
  quotient (tally (sweep_trial name strength n_samples alpha bandwidth) (range n_trials))
           n_trials.

Definition sweep_decides (name : string) (n_samples : nat) (n_trials : Z)
    (bandwidth alpha : float) (strength : float) : bool :=
  forallb (fun t => decided (sweep_trial name strength n_samples alpha bandwidth t))
          (range n_trials).

(** What the analysis writes when some test passes, and when none does. *)
Definition best_lines (best : CalibrationResult) : list string :=
  [ (nl ++ "Best calibrated test: " ++ test_name best) ++ nl;
    ("  - False positive rate: " ++ format_percent 1 (empirical_size best)
       ++ " (target: 5%)") ++ nl;
    ("  - Power: " ++ format_percent 1 (power best) ++ " (target: >80%)") ++ nl ].

Definition oversized_notes : list string :=
  [ (nl ++ "Note: Kernel regression residuals are correlated, which can") ++ nl;
    "inflate Type I error for tests designed for linear models." ++ nl ].

Definition no_pass_lines (results : list CalibrationResult) : list string :=
  let first := (nl ++ "No test passed both criteria.") ++ nl in
  let heading := (nl ++ "Oversized tests (too many false positives):") ++ nl in
  first :: match oversized results with
           | [] => []
           | over =>
               (heading :: map (fun r => (oversized_line r ++ nl)%string) over
                  ++ oversized_notes)%list
           end.

(** Computations that return from every world. *)
Definition completes {A : Type} (m : M A) : Prop :=
  forall w, exists a w', m w = (Ok a, w').

(** The bar [power_curve] draws for a rate, and the line it prints for a
    strength. *)
Definition bar_of (rate : float) : string :=
  match int_of_float (rate * 40)%float with
  | Ok k => str_mul "#" k
  | Raise _ => ""
  end.

Definition curve_line (name : string) (n_samples : nat) (n_trials : Z)
    (bandwidth alpha : float) (strength : float) : string :=
  let rate := sweep_rate name n_samples n_trials bandwidth alpha strength in
  (ljust 12 (format_fixed 2 strength) ++ " "
     ++ ljust 20 (format_percent 1 rate) ++ " " ++ bar_of rate) ++ nl.


(** Computations whose outcome and written text are the same from every
    world: they depend neither on the state of numpy's generator nor on
    what was written before. *)
Definition reproducible {A : Type} (m : M A) : Prop :=
  forall w1 w2,
    fst (m w1) = fst (m w2) /\
    exists d, stdout (snd (m w1)) = (stdout w1 ++ d)%list /\
              stdout (snd (m w2)) = (stdout w2 ++ d)%list.

End Reports.

(** ** The monad and the loops *)

Section MonadFacts.

Context {NP : Numpy}.

Lemma pair_of_fst {A B : Type} (p : A * B) (a : A) : fst p = a -> p = (a, snd p).
Proof. destruct p; simpl; congruence. Qed.

Lemma bind_ok_inv {A B : Type} (m : M A) (k : A -> M B) w b w' :
  bind m k w = (Ok b, w') ->
  exists a w1, m w = (Ok a, w1) /\ k a w1 = (Ok b, w').
Proof.
  unfold bind. destruct (m w) as [[a|e] w1]; intros H.
  - exists a, w1. auto.
  - discriminate.
Qed.

Lemma bind_ok {A B : Type} (m : M A) (k : A -> M B) w a w1 :
  m w = (Ok a, w1) -> bind m k w = k a w1.
Proof. unfold bind. intros ->. reflexivity. Qed.

Lemma bind_raise {A B : Type} (m : M A) (k : A -> M B) w e w1 :
  m w = (Raise e, w1) -> bind m k w = (Raise e, w1).
Proof. unfold bind. intros ->. reflexivity. Qed.

Lemma bind_ext {A B : Type} (m : M A) (k1 k2 : A -> M B) w :
  (forall a w1, k1 a w1 = k2 a w1) -> bind m k1 w = bind m k2 w.
Proof.
  intros H. unfold bind. destruct (m w) as [[a|e] w1]; auto.
Qed.

Lemma for_each_ext {A S : Type} (l : list A) (f g : A -> S -> M S) :
  (forall x acc w, In x l -> f x acc w = g x acc w) ->
  forall acc w, for_each l f acc w = for_each l g acc w.
Proof.
  induction l as [|x r IH]; intros H acc w; simpl.
  - reflexivity.
  - unfold bind. rewrite H by (left; reflexivity).
    destruct (g x acc w) as [[a|e] w1]; auto.
    apply IH. intros; apply H; right; assumption.
Qed.

Lemma extends_refl w : extends w w.
Proof. exists []. now rewrite app_nil_r. Qed.

Lemma extends_trans w1 w2 w3 : extends w1 w2 -> extends w2 w3 -> extends w1 w3.
Proof.
  intros [d1 H1] [d2 H2]. exists (d1 ++ d2)%list.
  now rewrite H2, H1, app_assoc.
Qed.

Lemma extends_In w w' s : extends w w' -> In s (stdout w) -> In s (stdout w').
Proof. intros [d ->] H. apply in_or_app. now left. Qed.

Lemma print_extends s w : extends w (snd (print s w)).
Proof. exists [(s ++ nl)%string]. reflexivity. Qed.

End MonadFacts.

(** ** Arrays *)

Section ArrayFacts.






Lemma ravel_reshape_col a : Np.ravel (Np.reshape_col a) = a.
Proof.
  unfold Np.ravel, Np.reshape_col.
  induction a as [|v r IH]; simpl; congruence.
Qed.

Lemma reshape_col_length a : List.length (Np.reshape_col a) = List.length a.
Proof. unfold Np.reshape_col. apply length_map. Qed.




Context {NP : Numpy}.








Lemma generate_nonlinear_homoscedastic_eq n seed w :
  generate_nonlinear_homoscedastic n seed w
  = (Ok (homoscedastic_data n seed), reseeded n seed w).
Proof.
  unfold generate_nonlinear_homoscedastic, homoscedastic_data, reseeded,
    seeded_draws, seeded_state, mean_curve, grid, bind, np_random_seed,
    np_random_randn, ret.
  cbn [rng stdout]. rewrite ravel_reshape_col.
  destruct (Np.draws n (random_seed seed)) as [zs st]. reflexivity.
Qed.

Lemma generate_trumpet_eq n seed strength w :
  generate_trumpet n seed strength w
  = (Ok (trumpet_data n seed strength), reseeded n seed w).
Proof.
  unfold generate_trumpet, trumpet_data, reseeded,
    seeded_draws, seeded_state, mean_curve, grid, bind, np_random_seed,
    np_random_randn, ret.
  cbn [rng stdout]. rewrite ravel_reshape_col.
  destruct (Np.draws n (random_seed seed)) as [zs st]. reflexivity.
Qed.







End ArrayFacts.

(** ** The trial loops *)

Section LoopFacts.

Context {NP : Numpy} {KR : KernelRegression} {FMT : Formatting}.

Lemma tally_cons V t r :
  tally V (t :: r) = (if rejected (V t) then 1 else 0) + tally V r.
Proof.
  unfold tally. simpl. destruct (rejected (V t)); simpl List.length; lia.
Qed.

Lemma tally_bounds V l : 0 <= tally V l <= Z.of_nat (List.length l).
Proof.
  unfold tally. pose proof (filter_length_le (fun t => rejected (V t)) l). lia.
Qed.

Lemma range_length n : Z.of_nat (List.length (range n)) = Z.max 0 n.
Proof. unfold range. rewrite length_map, length_seq. lia. Qed.

Lemma range_In n t : In t (range n) <-> 0 <= t < n.
Proof.
  unfold range. rewrite in_map_iff. split.
  - intros [k [<- Hk]]. apply in_seq in Hk. lia.
  - intros H. exists (Z.to_nat t). split; [lia|]. apply in_seq. lia.
Qed.

(** A loop whose body ends each trial as [V] says: it raises the first
    exception let through, else it adds the rejections to the tally; on the
    way it prints what [says] dictates. *)
Section Loop.

Variables (body : Z -> Z -> M Z) (V : Z -> verdict)
          (through : verdict -> option exn) (says : Z -> verdict -> list string).

Hypothesis body_spec : forall t acc w,
  exists w1, stdout w1 = (stdout w ++ says t (V t))%list /\
    body t acc w =
      match through (V t) with
      | Some e => (Raise e, w1)
      | None => (Ok (acc + if rejected (V t) then 1 else 0), w1)
      end.

Lemma loop_completes l : forall acc w,
  forallb (fun t => quiet through (V t)) l = true ->
  exists w', for_each l body acc w = (Ok (acc + tally V l), w') /\
             stdout w' = (stdout w ++ flat_map (fun t => says t (V t)) l)%list.
Proof.
  induction l as [|t r IH]; intros acc w Hq.
  - exists w. simpl. unfold ret, tally. simpl.
    rewrite Z.add_0_r, app_nil_r. auto.
  - simpl in Hq. apply andb_true_iff in Hq as [Ht Hr].
    destruct (body_spec t acc w) as [w1 [Hout Hb]].
    unfold quiet in Ht. destruct (through (V t)); [discriminate|].
    destruct (IH (acc + if rejected (V t) then 1 else 0) w1 Hr) as [w' [Hloop Hout']].
    exists w'. split.
    + simpl. rewrite (bind_ok _ _ _ _ _ Hb), Hloop, tally_cons.
      f_equal. f_equal. lia.
    + simpl. rewrite Hout', Hout, app_assoc. reflexivity.
Qed.

Lemma loop_aborts l : forall acc w,
  forallb (fun t => quiet through (V t)) l = false ->
  exists e w' t, for_each l body acc w = (Raise e, w') /\
                 In t l /\ through (V t) = Some e /\ extends w w'.
Proof.
  induction l as [|t r IH]; intros acc w Hq; [discriminate|].
  simpl in Hq.
  destruct (body_spec t acc w) as [w1 [Hout Hb]].
  unfold quiet in Hq at 1.
  destruct (through (V t)) as [e|] eqn:Ht.
  - exists e, w1, t. simpl. rewrite (bind_raise _ _ _ _ _ Hb).
    repeat split; auto. now exists (says t (V t)).
  - simpl in Hq.
    destruct (IH (acc + if rejected (V t) then 1 else 0) w1 Hq)
      as [e [w' [t' [Hloop [Hin [Hthr Hext]]]]]].
    exists e, w', t'. simpl. rewrite (bind_ok _ _ _ _ _ Hb).
    repeat split; auto.
    apply extends_trans with w1; auto. now exists (says t (V t)).
Qed.

Lemma loop_ok_inv l acc w n w' :
  for_each l body acc w = (Ok n, w') ->
  forallb (fun t => quiet through (V t)) l = true /\
  n = acc + tally V l /\
  stdout w' = (stdout w ++ flat_map (fun t => says t (V t)) l)%list.
Proof.
  intros H.
  destruct (forallb (fun t => quiet through (V t)) l) eqn:Hq.
  - destruct (loop_completes l acc w Hq) as [w2 [H2 Hout]].
    rewrite H in H2. inversion H2; subst. auto.
  - destruct (loop_aborts l acc w Hq) as [e [w2 [t [H2 _]]]].
    rewrite H in H2. discriminate.
Qed.

End Loop.

Lemma quiet_fit v : quiet lets_fit_through v = fit_ok v.
Proof. destruct v; reflexivity. Qed.

Lemma quiet_all v : quiet lets_all_through v = decided v.
Proof. destruct v; reflexivity. Qed.

Lemma forallb_ext_eq {A : Type} (f g : A -> bool) l :
  (forall x, f x = g x) -> forallb f l = forallb g l.
Proof. intros H. induction l; simpl; congruence. Qed.

Lemma flat_map_nothing {A B : Type} (l : list A) :
  flat_map (fun _ : A => @nil B) l = [].
Proof. induction l; simpl; auto. Qed.

Lemma write_extends lines w : extends w (write lines w).
Proof. now exists lines. Qed.

Section Arms.

Variables (name : string) (n_samples : nat) (alpha bandwidth : float).

(** One pass through the body of each loop. *)
Lemma size_body_spec (t acc : Z) (w : world) :
  exists w1, stdout w1 = (stdout w ++ says_warning t (size_trial name n_samples alpha bandwidth t))%list /\
    ('(X, y) <- generate_nonlinear_homoscedastic n_samples (size_arm_seed t) ;;
     model <- lift (fit bandwidth X y) ;;
     try_except
       (result <- lift (heteroscedasticity_test model X y name alpha) ;;
        if is_heteroscedastic result then ret (acc + 1) else ret acc)
       (fun e => print (warning_line t e) ;; ret acc)) w
    = match lets_fit_through (size_trial name n_samples alpha bandwidth t) with
      | Some e => (Raise e, w1)
      | None => (Ok (acc + if rejected (size_trial name n_samples alpha bandwidth t)
                           then 1 else 0), w1)
      end.
Proof.
  rewrite (bind_ok _ _ _ _ _ (generate_nonlinear_homoscedastic_eq _ _ _)).
  unfold size_trial, run_trial.
  destruct (homoscedastic_data n_samples (size_arm_seed t)) as [X y].
  unfold bind, lift, try_except, ret, print.
  destruct (fit bandwidth X y) as [m|e]; cbn.
  - destruct (heteroscedasticity_test m X y name alpha) as [r|e]; cbn.
    + exists (reseeded n_samples (size_arm_seed t) w). cbn. rewrite app_nil_r.
      split; [reflexivity|].
      destruct (is_heteroscedastic r); [reflexivity|]. now rewrite Z.add_0_r.
    + eexists. split; [|rewrite Z.add_0_r; reflexivity]. reflexivity.
  - exists (reseeded n_samples (size_arm_seed t) w). cbn. rewrite app_nil_r. auto.
Qed.

Lemma power_body_spec (t acc : Z) (w : world) :
  exists w1, stdout w1 = (stdout w ++ says_nothing t (power_trial name n_samples alpha bandwidth t))%list /\
    ('(X, y) <- generate_trumpet n_samples (power_arm_seed t) 1.0 ;;
     model <- lift (fit bandwidth X y) ;;
     try_except
       (result <- lift (heteroscedasticity_test model X y name alpha) ;;
        if is_heteroscedastic result then ret (acc + 1) else ret acc)
       (fun _ => ret acc)) w
    = match lets_fit_through (power_trial name n_samples alpha bandwidth t) with
      | Some e => (Raise e, w1)
      | None => (Ok (acc + if rejected (power_trial name n_samples alpha bandwidth t)
                           then 1 else 0), w1)
      end.
Proof.
  rewrite (bind_ok _ _ _ _ _ (generate_trumpet_eq _ _ _ _)).
  unfold power_trial, run_trial.
  destruct (trumpet_data n_samples (power_arm_seed t) 1) as [X y].
  unfold bind, lift, try_except, ret, says_nothing.
  exists (reseeded n_samples (power_arm_seed t) w). cbn. rewrite app_nil_r.
  split; [reflexivity|].
  destruct (fit bandwidth X y) as [m|e]; cbn; [|reflexivity].
  destruct (heteroscedasticity_test m X y name alpha) as [r|e]; cbn.
  - destruct (is_heteroscedastic r); [reflexivity|]. now rewrite Z.add_0_r.
  - now rewrite Z.add_0_r.
Qed.

Lemma sweep_body_spec (strength : float) (t acc : Z) (w : world) :
  exists w1, stdout w1 = (stdout w ++ says_nothing t (sweep_trial name strength n_samples alpha bandwidth t))%list /\
    ('(X, y) <- (if (strength =? 0)%float
                 then generate_nonlinear_homoscedastic n_samples t
                 else generate_trumpet n_samples t strength) ;;
     model <- lift (fit bandwidth X y) ;;
     result <- lift (heteroscedasticity_test model X y name alpha) ;;
     if is_heteroscedastic result then ret (acc + 1) else ret acc) w
    = match lets_all_through (sweep_trial name strength n_samples alpha bandwidth t) with
      | Some e => (Raise e, w1)
      | None => (Ok (acc + if rejected (sweep_trial name strength n_samples alpha bandwidth t)
                           then 1 else 0), w1)
      end.
Proof.
  exists (reseeded n_samples t w). unfold says_nothing. cbn. rewrite app_nil_r.
  split; [reflexivity|].
  assert (Hgen : (if (strength =? 0)%float
                  then generate_nonlinear_homoscedastic n_samples t
                  else generate_trumpet n_samples t strength) w
                 = (Ok (if (strength =? 0)%float then homoscedastic_data n_samples t
                        else trumpet_data n_samples t strength),
                    reseeded n_samples t w)).
  { destruct (strength =? 0)%float;
      [apply generate_nonlinear_homoscedastic_eq | apply generate_trumpet_eq]. }
  rewrite (bind_ok _ _ _ _ _ Hgen).
  unfold sweep_trial, run_trial.
  destruct (if (strength =? 0)%float then homoscedastic_data n_samples t
            else trumpet_data n_samples t strength) as [X y].
  unfold bind, lift, ret.
  destruct (fit bandwidth X y) as [m|e]; cbn; [|reflexivity].
  destruct (heteroscedasticity_test m X y name alpha) as [r|e]; cbn; [|reflexivity].
  destruct (is_heteroscedastic r); [reflexivity|]. now rewrite Z.add_0_r.
Qed.

(** The size arm: it completes exactly when no fit raises, with the
    rejections as its tally and one warning for each test that raised. *)
Lemma size_arm_completes n_trials w :
  forallb (fun t => fit_ok (size_trial name n_samples alpha bandwidth t)) (range n_trials) = true ->
  exists w', size_arm name n_samples n_trials alpha bandwidth w
             = (Ok (tally (size_trial name n_samples alpha bandwidth) (range n_trials)), w') /\
             stdout w' = (stdout w ++ warnings (size_trial name n_samples alpha bandwidth)
                                       (range n_trials))%list.
Proof.
  intros H. unfold size_arm, warnings.
  apply (loop_completes _ _ lets_fit_through says_warning
           (fun t acc w => size_body_spec t acc w) (range n_trials) 0 w).
  rewrite <- H. apply forallb_ext_eq. intros; apply quiet_fit.
Qed.

Lemma size_arm_ok_inv n_trials w fp w' :
  size_arm name n_samples n_trials alpha bandwidth w = (Ok fp, w') ->
  forallb (fun t => fit_ok (size_trial name n_samples alpha bandwidth t)) (range n_trials) = true /\
  fp = tally (size_trial name n_samples alpha bandwidth) (range n_trials) /\
  stdout w' = (stdout w ++ warnings (size_trial name n_samples alpha bandwidth)
                            (range n_trials))%list.
Proof.
  intros H. unfold size_arm in H.
  apply (loop_ok_inv _ _ lets_fit_through says_warning
           (fun t acc w => size_body_spec t acc w)) in H.
  destruct H as [Hq [Hn Hout]]. repeat split; auto.
  rewrite <- Hq. apply forallb_ext_eq. intros; symmetry; apply quiet_fit.
Qed.


Lemma power_arm_completes n_trials w :
  forallb (fun t => fit_ok (power_trial name n_samples alpha bandwidth t)) (range n_trials) = true ->
  exists w', power_arm name n_samples n_trials alpha bandwidth w
             = (Ok (tally (power_trial name n_samples alpha bandwidth) (range n_trials)), w') /\
             stdout w' = stdout w.
Proof.
  intros H. unfold power_arm.
  destruct (loop_completes _ _ lets_fit_through says_nothing
              (fun t acc w => power_body_spec t acc w) (range n_trials) 0 w)
    as [w' [Hl Hout]].
  { rewrite <- H. apply forallb_ext_eq. intros; apply quiet_fit. }
  exists w'. split; [exact Hl|].
  unfold says_nothing in Hout. now rewrite flat_map_nothing, app_nil_r in Hout.
Qed.

Lemma power_arm_ok_inv n_trials w tp w' :
  power_arm name n_samples n_trials alpha bandwidth w = (Ok tp, w') ->
  forallb (fun t => fit_ok (power_trial name n_samples alpha bandwidth t)) (range n_trials) = true /\
  tp = tally (power_trial name n_samples alpha bandwidth) (range n_trials) /\
  stdout w' = stdout w.
Proof.
  intros H. unfold power_arm in H.
  apply (loop_ok_inv _ _ lets_fit_through says_nothing
           (fun t acc w => power_body_spec t acc w)) in H.
  destruct H as [Hq [Hn Hout]]. repeat split; auto.
  - rewrite <- Hq. apply forallb_ext_eq. intros; symmetry; apply quiet_fit.
  - unfold says_nothing in Hout. now rewrite flat_map_nothing, app_nil_r in Hout.
Qed.


Lemma sweep_arm_completes strength n_trials w :
  forallb (fun t => decided (sweep_trial name strength n_samples alpha bandwidth t)) (range n_trials) = true ->
  exists w', sweep_arm name strength n_samples n_trials alpha bandwidth w
             = (Ok (tally (sweep_trial name strength n_samples alpha bandwidth) (range n_trials)), w') /\
             stdout w' = stdout w.
Proof.
  intros H. unfold sweep_arm.
  destruct (loop_completes _ _ lets_all_through says_nothing
              (fun t acc w => sweep_body_spec strength t acc w) (range n_trials) 0 w)
    as [w' [Hl Hout]].
  { rewrite <- H. apply forallb_ext_eq. intros; apply quiet_all. }
  exists w'. split; [exact Hl|].
  unfold says_nothing in Hout. now rewrite flat_map_nothing, app_nil_r in Hout.
Qed.

Lemma sweep_arm_ok_inv strength n_trials w d w' :
  sweep_arm name strength n_samples n_trials alpha bandwidth w = (Ok d, w') ->
  forallb (fun t => decided (sweep_trial name strength n_samples alpha bandwidth t)) (range n_trials) = true /\
  d = tally (sweep_trial name strength n_samples alpha bandwidth) (range n_trials) /\
  stdout w' = stdout w.
Proof.
  intros H. unfold sweep_arm in H.
  apply (loop_ok_inv _ _ lets_all_through says_nothing
           (fun t acc w => sweep_body_spec strength t acc w)) in H.
  destruct H as [Hq [Hn Hout]]. repeat split; auto.
  - rewrite <- Hq. apply forallb_ext_eq. intros; symmetry; apply quiet_all.
  - unfold says_nothing in Hout. now rewrite flat_map_nothing, app_nil_r in Hout.
Qed.


End Arms.

End LoopFacts.

(** ** What [calibrate_test] computes and writes *)

Section CalibrationFacts.

Context {NP : Numpy} {KR : KernelRegression} {FMT : Formatting}.

Local Open Scope string_scope.

Lemma world_eta (w : world) : {| rng := rng w; stdout := stdout w |} = w.
Proof. destruct w; reflexivity. Qed.

(** [calibrate_test], step by step. *)
Lemma calibrate_test_unfold name n_samples n_trials alpha bandwidth w :
  calibrate_test name n_samples n_trials alpha bandwidth w =
  match size_arm name n_samples n_trials alpha bandwidth
          (write (header_lines name n_samples n_trials alpha) w) with
  | (Raise e, w2) => (Raise e, w2)
  | (Ok fp, w2) =>
      match int_truediv fp n_trials with
      | Raise e => (Raise e, w2)
      | Ok es =>
          match power_arm name n_samples n_trials alpha bandwidth
                  (write (size_lines es) w2) with
          | (Raise e, w4) => (Raise e, w4)
          | (Ok tp, w4) =>
              match int_truediv tp n_trials with
              | Raise e => (Raise e, w4)
              | Ok pw => (Ok (result_of name alpha es pw), write (power_lines pw) w4)
              end
          end
      end
  end.
Proof.
  unfold calibrate_test, bind, print, print_noend, lift, write, header_lines.
  cbn [rng stdout]. rewrite <- !app_assoc. cbn [app].
  destruct (size_arm _ _ _ _ _ _) as [[fp|e] w2]; [|reflexivity].
  destruct (int_truediv fp n_trials) as [es|e]; [|reflexivity].
  unfold size_lines.
  destruct (perfect_band es), (size_band es) eqn:Hs; cbn [rng stdout];
    rewrite <- !app_assoc; cbn [app];
    (destruct (power_arm _ _ _ _ _ _) as [[tp|e] w4]; [|reflexivity]);
    (destruct (int_truediv tp n_trials) as [pw|e]; [|reflexivity]);
    unfold ret, result_of, power_lines; cbn [rng stdout];
    rewrite <- !app_assoc; cbn [app]; rewrite Hs; reflexivity.
Qed.

Lemma int_truediv_ok a b : b <> 0 -> int_truediv a b = Ok (quotient a b).
Proof.
  intros Hb. unfold int_truediv.
  destruct (b =? 0)%Z eqn:E; [apply Z.eqb_eq in E; contradiction | reflexivity].
Qed.

Lemma int_truediv_ok_inv a b x : int_truediv a b = Ok x -> b <> 0 /\ x = quotient a b.
Proof.
  unfold int_truediv. destruct (b =? 0)%Z eqn:E; [discriminate|].
  intros H. inversion H. apply Z.eqb_neq in E. auto.
Qed.

Section OneTest.

Variables (name : string) (n_samples : nat) (n_trials : Z) (alpha bandwidth : float).

Let Vs := size_trial name n_samples alpha bandwidth.
Let Vp := power_trial name n_samples alpha bandwidth.
Let es := quotient (tally Vs (range n_trials)) n_trials.
Let pw := quotient (tally Vp (range n_trials)) n_trials.

(** A calibration returns exactly when no fit raises in either arm and
    [n_trials] is not zero; it then returns the record of the two rates. *)
Lemma calibrate_test_completes w :
  n_trials <> 0 ->
  forallb (fun t => fit_ok (Vs t)) (range n_trials) = true ->
  forallb (fun t => fit_ok (Vp t)) (range n_trials) = true ->
  exists w', calibrate_test name n_samples n_trials alpha bandwidth w
             = (Ok (result_of name alpha es pw), w') /\
             stdout w' = (stdout w ++ calibration_lines name n_samples n_trials alpha bandwidth)%list.
Proof.
  intros Hn Hs Hp. rewrite calibrate_test_unfold.
  destruct (size_arm_completes name n_samples alpha bandwidth n_trials
              (write (header_lines name n_samples n_trials alpha) w) Hs)
    as [w2 [Hsize Hout2]].
  rewrite Hsize, (int_truediv_ok _ _ Hn).
  destruct (power_arm_completes name n_samples alpha bandwidth n_trials
              (write (size_lines es) w2) Hp)
    as [w4 [Hpower Hout4]].
  fold Vs. fold es. rewrite Hpower, (int_truediv_ok _ _ Hn).
  eexists. split; [reflexivity|].
  unfold calibration_lines. cbv zeta. cbn [write rng stdout].
  rewrite Hout4. cbn [write stdout]. rewrite Hout2. cbn [write stdout].
  fold Vs Vp es pw. now rewrite <- !app_assoc.
Qed.

Lemma calibrate_test_ok_inv w r w' :
  calibrate_test name n_samples n_trials alpha bandwidth w = (Ok r, w') ->
  n_trials <> 0 /\
  forallb (fun t => fit_ok (Vs t)) (range n_trials) = true /\
  forallb (fun t => fit_ok (Vp t)) (range n_trials) = true /\
  r = result_of name alpha es pw /\
  stdout w' = (stdout w ++ calibration_lines name n_samples n_trials alpha bandwidth)%list.
Proof.
  rewrite calibrate_test_unfold.
  destruct (size_arm _ _ _ _ _ _) as [[fp|e] w2] eqn:Hsize; [|discriminate].
  apply size_arm_ok_inv in Hsize as [Hs [Hfp Hout2]].
  destruct (int_truediv fp n_trials) as [x|e] eqn:Hx; [|discriminate].
  apply int_truediv_ok_inv in Hx as [Hn Hx].
  destruct (power_arm _ _ _ _ _ _) as [[tp|e] w4] eqn:Hpower; [|discriminate].
  apply power_arm_ok_inv in Hpower as [Hp [Htp Hout4]].
  destruct (int_truediv tp n_trials) as [y|e] eqn:Hy; [|discriminate].
  apply int_truediv_ok_inv in Hy as [_ Hy].
  intros H. inversion H; subst. clear H.
  repeat split; auto.
  unfold calibration_lines. cbv zeta. cbn [write rng stdout].
  rewrite Hout4. cbn [write stdout]. rewrite Hout2. cbn [write stdout].
  fold Vs Vp es pw. now rewrite <- !app_assoc.
Qed.


End OneTest.

End CalibrationFacts.

(** ** What the sweep computes *)

Section SweepFacts.

Context {NP : Numpy} {KR : KernelRegression} {FMT : Formatting}.

Variables (name : string) (n_samples : nat) (n_trials : Z) (bandwidth alpha : float).

Lemma sweep_loop_ok_inv strengths : forall acc w pts w',
  for_each strengths (fun strength points =>
    detections <- sweep_arm name strength n_samples n_trials alpha bandwidth ;;
    rate <- lift (int_truediv detections n_trials) ;;
    k <- lift (int_of_float (rate * 40)%float) ;;
    let bar := str_mul "#" k in
    print (ljust 12 (format_fixed 2 strength) ++ " "
           ++ ljust 20 (format_percent 1 rate) ++ " " ++ bar) ;;
    ret (points ++ [(strength, rate)])%list) acc w = (Ok pts, w') ->
  pts = (acc ++ map (fun s => (s, sweep_rate name n_samples n_trials bandwidth alpha s)) strengths)%list /\
  forallb (sweep_decides name n_samples n_trials bandwidth alpha) strengths = true.
Proof.
  induction strengths as [|s r IH]; intros acc w pts w' H.
  - simpl in H. inversion H. simpl. now rewrite app_nil_r.
  - simpl in H. apply bind_ok_inv in H as [acc1 [w1 [Hbody Hrest]]].
    apply bind_ok_inv in Hbody as [d [w2 [Harm Hbody]]].
    apply sweep_arm_ok_inv in Harm as [Hdec [Hd _]].
    apply bind_ok_inv in Hbody as [rate [w3 [Hrate Hbody]]].
    unfold lift in Hrate. inversion Hrate; subst w3.
    match goal with Hq : int_truediv _ _ = _ |- _ =>
      apply int_truediv_ok_inv in Hq as [Hn Hq] end.
    apply bind_ok_inv in Hbody as [k [w4 [_ Hbody]]].
    apply bind_ok_inv in Hbody as [u [w5 [_ Hbody]]].
    unfold ret in Hbody. inversion Hbody; subst acc1 w5.
    apply IH in Hrest as [Hpts Hall].
    split.
    + rewrite Hpts, <- app_assoc. simpl. unfold sweep_rate. now subst.
    + simpl. unfold sweep_decides at 1. now rewrite Hdec, Hall.
Qed.

Lemma power_curve_sweep_ok_inv strengths w pts w' :
  power_curve_sweep name strengths n_samples n_trials bandwidth alpha w = (Ok pts, w') ->
  pts = map (fun s => (s, sweep_rate name n_samples n_trials bandwidth alpha s)) strengths /\
  forallb (sweep_decides name n_samples n_trials bandwidth alpha) strengths = true.
Proof.
  unfold power_curve_sweep. intros H.
  apply sweep_loop_ok_inv in H. exact H.
Qed.



End SweepFacts.

(** ** Binary64 quotients of integers

    [SpecFloat] computes a quotient by an integer division that keeps
    enough digits, followed by a rounding ([binary_round_aux]).  The lemmas
    below follow that computation for two integers [0 <= k <= n]: the
    rounded quotient is a valid binary64 number between 0 and 1. *)

Section Binary64.

Lemma fexp_eq x : fexp prec emax x = Z.max (x - 53) (-1074).
Proof. reflexivity. Qed.

Lemma digits2_pos_size p : digits2_pos p = Pos.size p.
Proof. induction p; simpl; congruence. Qed.

Lemma Zdigits2_pos p : Zdigits2 (Zpos p) = Z.log2 (Zpos p) + 1.
Proof.
  simpl. rewrite digits2_pos_size.
  destruct p; simpl; try lia.
Qed.

Lemma Zdigits2_bounds m :
  0 < m -> 2 ^ (Zdigits2 m - 1) <= m < 2 ^ Zdigits2 m.
Proof.
  intros Hm. destruct m as [|p|p]; try lia.
  rewrite Zdigits2_pos.
  pose proof (Z.log2_spec (Zpos p) Hm) as H.
  replace (Z.log2 (Z.pos p) + 1 - 1) with (Z.log2 (Z.pos p)) by lia.
  replace (Z.log2 (Z.pos p) + 1) with (Z.succ (Z.log2 (Z.pos p))) by lia.
  exact H.
Qed.

Lemma Zdigits2_nonneg m : 0 <= m -> 0 <= Zdigits2 m.
Proof. destruct m; simpl; lia. Qed.

Lemma Zdigits2_le_of_lt m a : 0 <= a -> 0 <= m < 2 ^ a -> Zdigits2 m <= a.
Proof.
  intros Ha [H0 Hlt].
  destruct (Z.eq_dec m 0) as [->|Hne]; [simpl; lia|].
  assert (Hm : 0 < m) by lia.
  destruct (Zdigits2_bounds m Hm) as [Hlo _].
  destruct (Z_lt_le_dec a (Zdigits2 m)) as [Hgt|]; [|assumption].
  exfalso.
  assert (2 ^ a <= 2 ^ (Zdigits2 m - 1)) by (apply Z.pow_le_mono_r; lia).
  lia.
Qed.

Lemma Zdigits2_ge_of_le m a : 0 <= a -> 2 ^ a <= m -> a + 1 <= Zdigits2 m.
Proof.
  intros Ha Hle.
  assert (Hm : 0 < m) by (pose proof (Z.pow_pos_nonneg 2 a); lia).
  destruct (Zdigits2_bounds m Hm) as [_ Hhi].
  destruct (Z_lt_le_dec (Zdigits2 m) (a + 1)) as [Hlt|]; [|assumption].
  exfalso.
  assert (2 ^ Zdigits2 m <= 2 ^ a).
  { apply Z.pow_le_mono_r; try lia. }
  lia.
Qed.

(** One step of [shr] halves the mantissa. *)
Lemma shr_1_m mrs : 0 <= shr_m mrs -> shr_m (shr_1 mrs) = shr_m mrs / 2.
Proof.
  destruct mrs as [m r s]. simpl. intros Hm.
  destruct m as [|p|p]; try lia; [reflexivity|].
  destruct p; simpl.
  - rewrite Pos2Z.inj_xI. apply Z.div_unique with 1; lia.
  - rewrite Pos2Z.inj_xO. apply Z.div_unique with 0; lia.
  - reflexivity.
Qed.

Lemma iter_shr_1_m p : forall mrs,
  0 <= shr_m mrs ->
  shr_m (iter_pos shr_1 p mrs) = shr_m mrs / 2 ^ Zpos p.
Proof.
  induction p as [p IH|p IH|]; intros mrs Hm; simpl iter_pos.
  - assert (H1 : 0 <= shr_m (shr_1 mrs)).
    { rewrite shr_1_m by assumption. apply Z.div_pos; lia. }
    assert (H2 : 0 <= shr_m (iter_pos shr_1 p (shr_1 mrs))).
    { rewrite IH by assumption. apply Z.div_pos; [lia|]. apply Z.pow_pos_nonneg; lia. }
    rewrite IH, IH, shr_1_m by assumption.
    rewrite !Z.div_div by (try apply Z.pow_pos_nonneg; lia).
    f_equal.
    assert (Z.pos p~1 = 1 + Z.pos p + Z.pos p) as -> by lia.
    rewrite !Z.pow_add_r by lia. lia.
  - assert (H2 : 0 <= shr_m (iter_pos shr_1 p mrs)).
    { rewrite IH by assumption. apply Z.div_pos; [lia|]. apply Z.pow_pos_nonneg; lia. }
    rewrite IH, IH by assumption.
    rewrite !Z.div_div by (try apply Z.pow_pos_nonneg; lia).
    f_equal.
    assert (Z.pos p~0 = Z.pos p + Z.pos p) as -> by lia.
    rewrite !Z.pow_add_r by lia. lia.
  - rewrite shr_1_m by assumption. reflexivity.
Qed.

Lemma shr_record_of_loc_m m l : shr_m (shr_record_of_loc m l) = m.
Proof. destruct l as [|[]]; reflexivity. Qed.

(** What [shr_fexp] leaves: the mantissa shifted by [n] places, the
    exponent raised by [n]. *)
Lemma shr_fexp_spec m e l :
  0 <= m ->
  let n := Z.max 0 (fexp prec emax (Zdigits2 m + e) - e) in
  shr_m (fst (shr_fexp prec emax m e l)) = m / 2 ^ n /\
  snd (shr_fexp prec emax m e l) = e + n.
Proof.
  intros Hm n. unfold shr_fexp, shr. subst n.
  destruct (fexp prec emax (Zdigits2 m + e) - e) as [|p|p] eqn:E; cbn [fst snd].
  - rewrite shr_record_of_loc_m. simpl. rewrite Z.div_1_r. lia.
  - rewrite iter_shr_1_m by now rewrite shr_record_of_loc_m.
    rewrite shr_record_of_loc_m.
    replace (Z.max 0 (Z.pos p)) with (Z.pos p) by lia. auto.
  - rewrite shr_record_of_loc_m.
    replace (Z.max 0 (Z.neg p)) with 0 by lia. simpl. rewrite Z.div_1_r. lia.
Qed.

Lemma round_nearest_even_bounds m l :
  m <= round_nearest_even m l <= m + 1.
Proof.
  unfold round_nearest_even. destruct l as [|[]]; try destruct (Z.even m); lia.
Qed.

Lemma div_pow2_lt m a b :
  0 <= a -> 0 <= b -> 0 <= m < 2 ^ (a + b) -> m / 2 ^ a < 2 ^ b.
Proof.
  intros Ha Hb [H0 H]. apply Z.div_lt_upper_bound.
  - apply Z.pow_pos_nonneg; lia.
  - now rewrite <- Z.pow_add_r by lia.
Qed.

Lemma div_pow2_ge m a b :
  0 <= a -> 0 <= b -> 2 ^ (a + b) <= m -> 2 ^ b <= m / 2 ^ a.
Proof.
  intros Ha Hb H. apply Z.div_le_lower_bound.
  - apply Z.pow_pos_nonneg; lia.
  - now rewrite <- Z.pow_add_r by lia.
Qed.

Lemma Zdigits2_eq m a : 0 < a -> 2 ^ (a - 1) <= m < 2 ^ a -> Zdigits2 m = a.
Proof.
  intros Ha [Hlo Hhi].
  assert (0 < 2 ^ (a - 1)) by (apply Z.pow_pos_nonneg; lia).
  pose proof (Zdigits2_le_of_lt m a ltac:(lia) ltac:(lia)).
  pose proof (Zdigits2_ge_of_le m (a - 1) ltac:(lia) Hlo). lia.
Qed.

Lemma pow2_neg_exp_nonneg m e : 0 <= m -> m < 2 ^ (- e) -> e <= 0.
Proof.
  intros Hm H. destruct (Z_lt_le_dec 0 e) as [He|]; [|assumption].
  rewrite Z.pow_neg_r in H by lia. lia.
Qed.

(** Rounding a value below one that carries enough digits: the result
    is a zero or a canonical finite number not above one. *)
Lemma binary_round_aux_below_one m e l :
  0 <= m -> m < 2 ^ (- e) ->
  e <= fexp prec emax (Zdigits2 m + e) ->
  binary_round_aux prec emax false m e l = S754_zero false \/
  exists m2 e2,
    binary_round_aux prec emax false m e l = S754_finite false m2 e2 /\
    bounded prec emax m2 e2 = true /\
    (e2 < -52 \/ (e2 = -52 /\ Zpos m2 = 2 ^ 52)).
Proof.
  intros Hm Hlt Hprec.
  pose proof (pow2_neg_exp_nonneg m e Hm Hlt) as He.
  pose proof (Zdigits2_nonneg m Hm) as Hd0.
  assert (Hd : Zdigits2 m + e <= 0).
  { pose proof (Zdigits2_le_of_lt m (- e) ltac:(lia) ltac:(lia)). lia. }
  unfold binary_round_aux.
  destruct (shr_fexp_spec m e l Hm) as [Hm1 He1].
  destruct (shr_fexp prec emax m e l) as [mrs1 e1]. cbn [fst snd] in Hm1, He1.
  set (m1 := shr_m mrs1) in *.
  set (m1' := round_nearest_even m1 (loc_of_shr_record mrs1)).
  pose proof (round_nearest_even_bounds m1 (loc_of_shr_record mrs1)) as Hr.
  fold m1' in Hr.
  rewrite fexp_eq in Hprec, Hm1, He1.
  (* the first shift *)
  assert (Hcases :
    (e1 = Zdigits2 m + e - 53 /\ -1074 <= e1 /\ 2 ^ 52 <= m1 < 2 ^ 53) \/
    (e1 = -1074 /\ 0 <= m1 < 2 ^ 52)).
  { destruct (Z_le_gt_dec (-1074) (Zdigits2 m + e - 53)) as [Hn|Hs].
    - left.
      replace (Z.max 0 (Z.max (Zdigits2 m + e - 53) (-1074) - e))
        with (Zdigits2 m - 53) in * by lia.
      assert (Hmpos : 0 < m).
      { destruct (Z.eq_dec m 0) as [->|]; [simpl in *; lia | lia]. }
      destruct (Zdigits2_bounds m Hmpos) as [Hlo Hhi].
      repeat split; try lia; rewrite Hm1.
      + apply div_pow2_ge; try lia.
        replace (Zdigits2 m - 53 + 52) with (Zdigits2 m - 1) by lia. exact Hlo.
      + apply div_pow2_lt; try lia.
        replace (Zdigits2 m - 53 + 53) with (Zdigits2 m) by lia. lia.
    - right.
      replace (Z.max 0 (Z.max (Zdigits2 m + e - 53) (-1074) - e))
        with (-1074 - e) in * by lia.
      split; [lia|]. rewrite Hm1. split.
      + apply Z.div_pos; [lia|]. apply Z.pow_pos_nonneg; lia.
      + apply div_pow2_lt; try lia. split; [lia|].
        destruct (Z.eq_dec m 0) as [->|Hne].
        * apply Z.pow_pos_nonneg; lia.
        * destruct (Zdigits2_bounds m ltac:(lia)) as [_ Hhi].
          assert (2 ^ Zdigits2 m <= 2 ^ (-1074 - e + 52))
            by (apply Z.pow_le_mono_r; lia).
          lia. }
  (* the second shift *)
  assert (Hm1' : 0 <= m1') by (destruct Hcases as [[_ [_ ?]]|[_ ?]]; lia).
  destruct (shr_fexp_spec m1' e1 loc_Exact Hm1') as [Hm2 He2].
  destruct (shr_fexp prec emax m1' e1 loc_Exact) as [mrs2 e2]. cbn [fst snd] in Hm2, He2.
  rewrite fexp_eq in Hm2, He2.
  assert (Hfin :
    (e2 < -52 \/ (e2 = -52 /\ shr_m mrs2 = 2 ^ 52)) /\ 0 <= shr_m mrs2 /\
    (0 < shr_m mrs2 -> Z.max (Zdigits2 (shr_m mrs2) + e2 - 53) (-1074) = e2)).
  { destruct Hcases as [[He1' [Hmin [Hlo Hhi]]]|[He1' [Hlo Hhi]]].
    - destruct (Z.eq_dec m1' (2 ^ 53)) as [Heq|Hne].
      + assert (Hdig : Zdigits2 m1' = 54).
        { apply Zdigits2_eq; [lia|]. rewrite Heq. simpl. lia. }
        rewrite Hdig in Hm2, He2.
        replace (Z.max 0 (Z.max (54 + e1 - 53) (-1074) - e1)) with 1 in * by lia.
        rewrite Heq in Hm2. change (2 ^ 53 / 2 ^ 1) with (2 ^ 52) in Hm2.
        rewrite Hm2. change (Zdigits2 (2 ^ 52)) with 53.
        repeat split; try lia.
      + assert (Hdig : Zdigits2 m1' = 53).
        { apply Zdigits2_eq; [lia|]. simpl. lia. }
        rewrite Hdig in Hm2, He2.
        replace (Z.max 0 (Z.max (53 + e1 - 53) (-1074) - e1)) with 0 in * by lia.
        rewrite Z.pow_0_r, Z.div_1_r in Hm2. rewrite Hm2, Hdig.
        repeat split; try lia.
    - assert (Hdig : Zdigits2 m1' <= 53).
      { apply Zdigits2_le_of_lt; [lia|]. simpl. lia. }
      pose proof (Zdigits2_nonneg m1' Hm1').
      replace (Z.max 0 (Z.max (Zdigits2 m1' + e1 - 53) (-1074) - e1)) with 0 in * by lia.
      rewrite Z.pow_0_r, Z.div_1_r in Hm2. rewrite Hm2.
      repeat split; try lia. }
  destruct Hfin as [Hle1 [Hnn Hcan]].
  destruct (shr_m mrs2) as [|p|p] eqn:Ep; [now left| |lia].
  right. exists p, e2.
  assert (Hb : (e2 <=? emax - prec) = true).
  { apply Z.leb_le. change (emax - prec) with 971. lia. }
  rewrite Hb. split; [reflexivity|]. split; [|exact Hle1].
  unfold bounded, canonical_mantissa. rewrite Hb, andb_true_r.
  apply Z.eqb_eq. rewrite fexp_eq. apply Hcan. lia.
Qed.

Lemma div_eucl_div_mod a b : Z.div_eucl a b = (a / b, a mod b).
Proof. unfold Z.div, Z.modulo. now destruct (Z.div_eucl a b). Qed.

Lemma SF64div_int_lt k n :
  0 < k < n ->
  SF64div (int_to_SF k) (int_to_SF n) = S754_zero false \/
  exists m2 e2,
    SF64div (int_to_SF k) (int_to_SF n) = S754_finite false m2 e2 /\
    bounded prec emax m2 e2 = true /\
    (e2 < -52 \/ (e2 = -52 /\ Zpos m2 = 2 ^ 52)).
Proof.
  intros [Hk Hkn].
  destruct k as [|pk|pk]; try lia. destruct n as [|pn|pn]; try lia.
  unfold SF64div, SFdiv, int_to_SF, SFdiv_core_binary. cbn [xorb].
  set (dk := Zdigits2 (Z.pos pk)). set (dn := Zdigits2 (Z.pos pn)).
  destruct (Zdigits2_bounds (Z.pos pk) Hk) as [Hklo Hkhi]. fold dk in Hklo, Hkhi.
  destruct (Zdigits2_bounds (Z.pos pn) ltac:(lia)) as [Hnlo Hnhi]. fold dn in Hnlo, Hnhi.
  assert (Hdk : 1 <= dk) by (subst dk; simpl; lia).
  assert (Hdn : 1 <= dn) by (subst dn; simpl; lia).
  assert (Hdkn : dk <= dn).
  { subst dk. apply Zdigits2_le_of_lt; lia. }
  rewrite fexp_eq.
  set (e' := Z.min (Z.max (dk + 0 - (dn + 0) - 53) (-1074)) (0 - 0)).
  assert (He' : e' = Z.max (dk - dn - 53) (-1074)) by (subst e'; lia).
  assert (Hs : 0 - 0 - e' = - e') by lia. rewrite Hs.
  destruct (- e') as [|ps|ps] eqn:Es; try lia.
  rewrite div_eucl_div_mod, Z.shiftl_mul_pow2 by lia.
  rewrite <- Es.
  assert (Hpow : 0 < 2 ^ (- e')) by (apply Z.pow_pos_nonneg; lia).
  apply binary_round_aux_below_one.
  - apply Z.div_pos; lia.
  - apply Z.div_lt_upper_bound; [lia|]. nia.
  - rewrite fexp_eq.
    destruct (Z_le_gt_dec (dk - dn - 53) (-1074)) as [Hsub|Hnor]; [lia|].
    assert (Hq : 2 ^ 52 <= Z.pos pk * 2 ^ (- e') / Z.pos pn).
    { apply Z.div_le_lower_bound; [lia|].
      replace (- e') with (53 - dk + dn) by lia.
      assert (E1 : 2 ^ (dk - 1) * 2 ^ (53 - dk + dn) = 2 ^ dn * 2 ^ 52).
      { rewrite <- !Z.pow_add_r by lia. f_equal. lia. }
      assert (0 < 2 ^ (53 - dk + dn)) by (apply Z.pow_pos_nonneg; lia).
      nia. }
    pose proof (Zdigits2_ge_of_le _ 52 ltac:(lia) Hq). lia.
Qed.

Lemma SF64div_int_self n :
  0 < n ->
  SF64div (int_to_SF n) (int_to_SF n) = S754_finite false 4503599627370496 (-52).
Proof.
  intros Hn. destruct n as [|pn|pn]; try lia.
  unfold SF64div, SFdiv, int_to_SF, SFdiv_core_binary. cbn [xorb].
  replace (Zdigits2 (Z.pos pn) + 0 - (Zdigits2 (Z.pos pn) + 0)) with 0 by lia.
  change (Z.min (fexp prec emax 0) (0 - 0)) with (-53).
  change (0 - 0 - -53) with 53.
  rewrite div_eucl_div_mod, Z.shiftl_mul_pow2 by lia.
  rewrite Z.mul_comm, Z.div_mul, Z.mod_mul by lia.
  assert (Hloc : new_location (Z.pos pn) 0 = loc_Exact).
  { unfold new_location. destruct (Z.even (Z.pos pn)); reflexivity. }
  rewrite Hloc. reflexivity.
Qed.

Lemma SF64div_int_zero n :
  0 < n -> SF64div (int_to_SF 0) (int_to_SF n) = S754_zero false.
Proof. intros Hn. destruct n; try lia. reflexivity. Qed.

(** The quotient of two integers [0 <= k <= n], [0 < n], as a float. *)
Lemma quotient_unit_interval k n :
  0 <= k <= n -> 0 < n ->
  (0 <=? quotient k n)%float = true /\ (quotient k n <=? 1)%float = true.
Proof.
  intros Hk Hn. unfold quotient. rewrite !leb_spec.
  assert (Hcases : k = 0 \/ k = n \/ 0 < k < n) by lia.
  destruct Hcases as [->|[->|Hlt]].
  - rewrite SF64div_int_zero by assumption. split; reflexivity.
  - rewrite SF64div_int_self by assumption. split; vm_compute; reflexivity.
  - destruct (SF64div_int_lt k n Hlt) as [E|[m2 [e2 [E [Hb Hle]]]]]; rewrite E.
    + split; reflexivity.
    + rewrite Prim2SF_SF2Prim by exact Hb.
      change (Prim2SF 0) with (S754_zero false).
      replace (Prim2SF 1) with (S754_finite false 4503599627370496 (-52))
        by (vm_compute; reflexivity).
      split; [reflexivity|].
      unfold SFleb, SFcompare.
      destruct Hle as [Hlt2|[-> Hm]].
      * destruct (Z.compare_spec e2 (-52)); try lia; reflexivity.
      * inversion Hm. reflexivity.
Qed.

(** The strict order of floats is irreflexive and transitive, NaN
    included (it is below and above nothing). *)
Lemma SFltb_irrefl a : SFltb a a = false.
Proof.
  unfold SFltb, SFcompare.
  destruct a as [s|s| |s m e]; try destruct s; try reflexivity;
    rewrite Z.compare_refl; change (Pos.compare_cont Eq m m) with (Pos.compare m m);
    now rewrite Pos.compare_refl.
Qed.

Lemma SFltb_trans a b c : SFltb a b = true -> SFltb b c = true -> SFltb a c = true.
Proof.
  unfold SFltb, SFcompare.
  destruct a as [sa|sa| |sa ma ea], b as [sb|sb| |sb mb eb], c as [sc|sc| |sc mc ec];
    try destruct sa; try destruct sb; try destruct sc;
    try discriminate; try reflexivity;
    change Pos.compare_cont with (fun c p q => Pos.compare_cont c p q); cbv beta;
    change (Pos.compare_cont Eq ma mb) with (Pos.compare ma mb);
    change (Pos.compare_cont Eq mb mc) with (Pos.compare mb mc);
    change (Pos.compare_cont Eq ma mc) with (Pos.compare ma mc);
    destruct (Z.compare_spec ea eb), (Z.compare_spec eb ec), (Z.compare_spec ea ec);
    try discriminate; try reflexivity; try lia; subst;
    destruct (Pos.compare_spec ma mb), (Pos.compare_spec mb mc), (Pos.compare_spec ma mc);
    simpl; try discriminate; try reflexivity; try lia.
Qed.

Lemma ltb_irrefl (x : float) : (x <? x)%float = false.
Proof. rewrite ltb_spec. apply SFltb_irrefl. Qed.

Lemma ltb_trans (x y z : float) :
  (x <? y)%float = true -> (y <? z)%float = true -> (x <? z)%float = true.
Proof. rewrite !ltb_spec. apply SFltb_trans. Qed.

(** Between two numbers (no NaN), not below means at least. *)
Lemma SFleb_of_not_ltb a b :
  SFeqb a a = true -> SFeqb b b = true -> SFltb a b = false -> SFleb b a = true.
Proof.
  unfold SFeqb, SFltb, SFleb, SFcompare.
  destruct a as [sa|sa| |sa ma ea], b as [sb|sb| |sb mb eb];
    try destruct sa; try destruct sb;
    try discriminate; try reflexivity;
    intros _ _;
    change (Pos.compare_cont Eq ma mb) with (Pos.compare ma mb);
    change (Pos.compare_cont Eq mb ma) with (Pos.compare mb ma);
    destruct (Z.compare_spec ea eb), (Z.compare_spec eb ea);
    try discriminate; try reflexivity; try lia;
    destruct (Pos.compare_spec ma mb), (Pos.compare_spec mb ma);
    simpl; try discriminate; try reflexivity; try lia.
Qed.

Lemma leb_of_not_ltb (x y : float) :
  (x =? x)%float = true -> (y =? y)%float = true ->
  (x <? y)%float = false -> (y <=? x)%float = true.
Proof. rewrite !eqb_spec, ltb_spec, leb_spec. apply SFleb_of_not_ltb. Qed.

End Binary64.

(** ** The generators *)




(** ** Seeds *)

Lemma size_arm_seeds_In n_trials s :
  In s (size_arm_seeds n_trials) <-> 0 <= s < n_trials.
Proof.
  unfold size_arm_seeds, size_arm_seed. rewrite map_id. apply range_In.
Qed.

Lemma power_arm_seeds_In n_trials s :
  In s (power_arm_seeds n_trials) <-> 100000 <= s < n_trials + 100000.
Proof.
  unfold power_arm_seeds, power_arm_seed. rewrite in_map_iff. split.
  - intros [t [<- Ht]]. apply range_In in Ht. lia.
  - intros H. exists (s - 100000). split; [lia|]. apply range_In. lia.
Qed.




(** Beyond 100000 trials the two arms do share seeds. *)
Lemma arms_share_seeds_beyond (n_trials : Z) :
  100000 < n_trials ->
  In 100000 (size_arm_seeds n_trials) /\ In 100000 (power_arm_seeds n_trials).
Proof.
  intros H. split; [apply size_arm_seeds_In | apply power_arm_seeds_In]; lia.
Qed.

(** ** The verdicts of [calibrate_test] *)

(** The sample package at work. *)
Lemma sample_calibration :
  fst (@calibrate_test Sample.numpy Sample.regression Sample.formatting
         "white" 40 40 0.05 0.1 Sample.world0) = Ok Run.result.
Proof. vm_compute. reflexivity. Qed.

(** C2.  When [calibrate_test] returns, the empirical size of its result
    is the quotient of the size arm's tally by [n_trials], and
    [size_calibrated] is true exactly when [0.03 <= empirical_size] and
    [empirical_size <= 0.10], both bounds included: 0.10 (and 50 rejections
    in 500 trials) gives true, 0.11 (and 55 in 500) gives false, and over
    500 trials the flag is true exactly from 15 to 50 rejections.  The
    record returned is built from the two rates alone: the band 0.04-0.07
    decides no field of it (0.08 is calibrated without being in that band,
    0.05 is calibrated and in it). *)
Theorem size_flag_is_the_loose_band :
  forall (NP : Numpy) (KR : KernelRegression) (FMT : Formatting)
         (name : string) (n_samples : nat) (n_trials : Z) (alpha bandwidth : float)
         (w : world) (r : CalibrationResult) (w' : world),
    calibrate_test name n_samples n_trials alpha bandwidth w = (Ok r, w') ->
    empirical_size r
    = quotient (tally (size_trial name n_samples alpha bandwidth) (range n_trials)) n_trials /\
    size_calibrated r
    = ((0.03 <=? empirical_size r) && (empirical_size r <=? 0.10))%float /\
    (size_calibrated r = true <->
     (0.03 <=? empirical_size r)%float = true /\ (empirical_size r <=? 0.10)%float = true) /\
    r = result_of name alpha (empirical_size r) (power r) /\
    (size_band 0.10 = true /\ size_band 0.11 = false /\ size_band 0.03 = true /\
     size_band (quotient 50 500) = true /\ size_band (quotient 55 500) = false) /\
    forallb (fun fp => Bool.eqb (size_band (quotient fp 500)) ((15 <=? fp) && (fp <=? 50)))
            (range 501) = true /\
    (size_band 0.08 = true /\ perfect_band 0.08 = false /\
     size_band 0.05 = true /\ perfect_band 0.05 = true).
Proof.
  intros NP KR FMT name n_samples n_trials alpha bandwidth w r w' H.
  apply calibrate_test_ok_inv in H as [_ [_ [_ [Hr _]]]].
  subst r. cbn [empirical_size size_calibrated power result_of].
  split; [reflexivity|]. split; [reflexivity|]. split.
  - unfold size_band. apply andb_true_iff.
  - split; [reflexivity|].
    split; [repeat split; vm_compute; reflexivity|].
    split; [vm_compute; reflexivity|].
    repeat split; vm_compute; reflexivity.
Qed.

(** The size flag of the sample run. *)
Lemma size_flag_is_the_loose_band_witness :
  exists w',
    @calibrate_test Sample.numpy Sample.regression Sample.formatting
      "white" 40 40 0.05 0.1 Sample.world0 = (Ok Run.result, w') /\
    size_calibrated Run.result
    = ((0.03 <=? empirical_size Run.result)
       && (empirical_size Run.result <=? 0.10))%float.
Proof.
  pose proof (pair_of_fst _ _ sample_calibration) as E.
  eexists. split; [exact E|].
  apply (size_flag_is_the_loose_band _ _ _ _ _ _ _ _ _ _ _ E).
Defined.

(** C3.  When [calibrate_test] returns, the power of its result is the
    quotient of the power arm's tally by [n_trials], and [power_adequate] is
    true exactly when [0.80 <= power], the bound included: 0.80 (and 400
    detections in 500 trials) gives true, 0.799 (and 399 in 500) gives
    false, and over 500 trials the flag is true exactly from 400
    detections on. *)
Theorem power_flag_is_the_threshold :
  forall (NP : Numpy) (KR : KernelRegression) (FMT : Formatting)
         (name : string) (n_samples : nat) (n_trials : Z) (alpha bandwidth : float)
         (w : world) (r : CalibrationResult) (w' : world),
    calibrate_test name n_samples n_trials alpha bandwidth w = (Ok r, w') ->
    power r
    = quotient (tally (power_trial name n_samples alpha bandwidth) (range n_trials)) n_trials /\
    int_truediv (tally (power_trial name n_samples alpha bandwidth) (range n_trials)) n_trials
    = Ok (power r) /\
    power_adequate r = (0.80 <=? power r)%float /\
    (power_band 0.80 = true /\ power_band 0.799 = false /\
     power_band (quotient 400 500) = true /\ power_band (quotient 399 500) = false) /\
    forallb (fun tp => Bool.eqb (power_band (quotient tp 500)) (400 <=? tp))
            (range 501) = true.
Proof.
  intros NP KR FMT name n_samples n_trials alpha bandwidth w r w' H.
  apply calibrate_test_ok_inv in H as [Hn [_ [_ [Hr _]]]].
  subst r. cbn [power power_adequate result_of].
  split; [reflexivity|]. split; [now apply int_truediv_ok|].
  split; [reflexivity|].
  split; [repeat split; vm_compute; reflexivity|].
  vm_compute; reflexivity.
Qed.

(** The power flag of the sample run. *)
Lemma power_flag_is_the_threshold_witness :
  exists w',
    @calibrate_test Sample.numpy Sample.regression Sample.formatting
      "white" 40 40 0.05 0.1 Sample.world0 = (Ok Run.result, w') /\
    power_adequate Run.result = (0.80 <=? power Run.result)%float.
Proof.
  pose proof (pair_of_fst _ _ sample_calibration) as E.
  eexists. split; [exact E|].
  apply (power_flag_is_the_threshold _ _ _ _ _ _ _ _ _ _ _ E).
Defined.



(** ** The choice of the best test *)

Section SelectionFacts.

Context {NP : Numpy} {FMT : Formatting}.

Local Open Scope string_scope.

Lemma print_each {A : Type} (f : A -> string) (l : list A) : forall w,
  for_each l (fun r _ => print (f r)) tt w
  = (Ok tt, write (map (fun r => f r ++ nl) l) w).
Proof.
  induction l as [|x r IH]; intros w.
  - simpl. unfold ret, write. simpl. now rewrite app_nil_r, world_eta.
  - simpl. unfold bind at 1. unfold print at 1. rewrite IH.
    unfold write. cbn [rng stdout]. now rewrite <- app_assoc.
Qed.

(** The fold of [max]: what it keeps is an element seen, and no element
    seen has a strictly greater key. *)
Lemma fold_max_spec {A : Type} (key : A -> float) (xs : list A) :
  forall (seen : list A) (b : A),
    In b seen ->
    (forall r, In r seen -> (key b <? key r)%float = false) ->
    let b' := fold_left (fun best y => if (key best <? key y)%float then y else best) xs b in
    In b' (seen ++ xs)%list /\
    forall r, In r (seen ++ xs)%list -> (key b' <? key r)%float = false.
Proof.
  induction xs as [|y xs IH]; intros seen b Hin Hmax; simpl.
  - rewrite app_nil_r. auto.
  - assert (Happ : (seen ++ y :: xs = (seen ++ [y]) ++ xs)%list)
      by now rewrite <- app_assoc.
    rewrite Happ.
    destruct (key b <? key y)%float eqn:Hlt.
    + apply IH.
      * apply in_or_app. right. now left.
      * intros r Hr. apply in_app_or in Hr as [Hr|[<-|[]]].
        -- destruct (key y <? key r)%float eqn:Hyr; [|reflexivity].
           pose proof (Hmax r Hr) as Hbr.
           rewrite (ltb_trans _ _ _ Hlt Hyr) in Hbr. discriminate.
        -- apply ltb_irrefl.
    + apply IH.
      * apply in_or_app. now left.
      * intros r Hr. apply in_app_or in Hr as [Hr|[<-|[]]]; auto.
Qed.

Lemma max_by_spec {A : Type} (key : A -> float) (l : list A) :
  l <> [] ->
  exists best, max_by key l = Ok best /\ In best l /\
               forall r, In r l -> (key best <? key r)%float = false.
Proof.
  destruct l as [|x xs]; [congruence|]. intros _.
  eexists. split; [reflexivity|].
  apply (fold_max_spec key xs [x] x).
  - now left.
  - intros r [<-|[]]. apply ltb_irrefl.
Qed.




Lemma analysis_some_pass results w best :
  passing_tests results <> [] ->
  max_by margin (passing_tests results) = Ok best ->
  analysis results w = (Ok tt, write (best_lines best) w).
Proof.
  intros Hne Hbest. unfold analysis.
  destruct (passing_tests results) as [|p ps] eqn:E; [congruence|].
  unfold bind, lift. rewrite Hbest.
  unfold print, write, best_lines. cbn [rng stdout].
  now rewrite <- !app_assoc.
Qed.

Lemma analysis_none_pass results w :
  passing_tests results = [] ->
  analysis results w = (Ok tt, write (no_pass_lines results) w).
Proof.
  intros E. unfold analysis, no_pass_lines. rewrite E.
  destruct (oversized results) as [|o os] eqn:Eo.
  - unfold bind, print, ret, write. cbn [rng stdout]. reflexivity.
  - unfold bind at 1. unfold print at 1.
    unfold bind at 1. unfold print at 1.
    unfold bind at 1. rewrite print_each.
    unfold bind, print, write. cbn [rng stdout].
    rewrite <- !app_assoc. reflexivity.
Qed.

End SelectionFacts.


(** ** Failing trials *)






(** ** The sweep against the calibration *)

Lemma tally_ext {NP : Numpy} {KR : KernelRegression} (V1 V2 : Z -> verdict) l :
  (forall t, V1 t = V2 t) -> tally V1 l = tally V2 l.
Proof.
  intros H. unfold tally. f_equal. f_equal.
  apply filter_ext. intros t. now rewrite H.
Qed.

(** At a strength equal to zero a trial of the sweep is the trial of the
    size arm of the same index: the Null generator with the index as
    seed. *)
Lemma sweep_trial_at_zero {NP : Numpy} {KR : KernelRegression}
    name s n_samples alpha bandwidth t :
  (s =? 0)%float = true ->
  sweep_trial name s n_samples alpha bandwidth t
  = size_trial name n_samples alpha bandwidth t.
Proof. intros Hs. unfold sweep_trial, size_trial, size_arm_seed. now rewrite Hs. Qed.

Lemma power_curve_ok_inv {NP : Numpy} {KR : KernelRegression} {FMT : Formatting}
    name w pts w' :
  power_curve name w = (Ok pts, w') ->
  exists wa wb,
    power_curve_sweep name [0.0; 0.25; 0.5; 0.75; 1.0; 1.5; 2.0]%float
      200 200 0.1 0.05 wa = (Ok pts, wb).
Proof.
  unfold power_curve. intros H.
  do 7 (apply bind_ok_inv in H as [? [? [_ H]]]).
  apply bind_ok_inv in H as [pts' [wb [Hsweep H]]].
  repeat (apply bind_ok_inv in H as [? [? [_ H]]]).
  unfold ret in H. inversion H; subst. eauto.
Qed.

Lemma sample_sweep :
  fst (@power_curve_sweep Sample.numpy Sample.regression Sample.formatting
         "white" [0; 0.5; 2]%float 40 40 0.1 0.05 Sample.world0) = Ok Run.points.
Proof. vm_compute. reflexivity. Qed.

(** C6.  When a sweep over any strengths completes and a calibration of
    the same test with the same [n_samples], [n_trials], [alpha] and
    [bandwidth] returns, the sweep has one point per strength, in order; at
    a strength equal to zero its trials are those of the size arm (the Null
    generator with seeds 0, ..., [n_trials - 1]) and its detection rate is
    the empirical size of the calibration.  So the first point of
    [power_curve], strength 0.0, carries the empirical size
    [calibrate_test] finds with 200 samples and 200 trials. *)
Theorem sweep_at_zero_is_the_empirical_size :
  forall (NP : Numpy) (KR : KernelRegression) (FMT : Formatting)
         (name : string) (strengths : list float) (n_samples : nat) (n_trials : Z)
         (bandwidth alpha : float)
         (w1 : world) (pts : list (float * float)) (w1' : world)
         (w2 : world) (r : CalibrationResult) (w2' : world),
    power_curve_sweep name strengths n_samples n_trials bandwidth alpha w1 = (Ok pts, w1') ->
    calibrate_test name n_samples n_trials alpha bandwidth w2 = (Ok r, w2') ->
    map fst pts = strengths /\
    (forall s t, (s =? 0)%float = true ->
       sweep_trial name s n_samples alpha bandwidth t
       = run_trial name alpha bandwidth (homoscedastic_data n_samples t) /\
       size_trial name n_samples alpha bandwidth t
       = run_trial name alpha bandwidth (homoscedastic_data n_samples t)) /\
    (forall s rate, In (s, rate) pts -> (s =? 0)%float = true ->
       rate = empirical_size r) /\
    (forall w3 pts' w3' w4 r' w4',
        power_curve name w3 = (Ok pts', w3') ->
        calibrate_test name 200 200 0.05 0.1 w4 = (Ok r', w4') ->
        hd_error pts' = Some (0%float, empirical_size r')).
Proof.
  intros NP KR FMT name strengths n_samples n_trials bandwidth alpha
         w1 pts w1' w2 r w2' Hsweep Hcal.
  assert (Hrate : forall ns nt bw al s (r0 : CalibrationResult) wa wb,
             calibrate_test name ns nt al bw wa = (Ok r0, wb) ->
             (s =? 0)%float = true ->
             sweep_rate name ns nt bw al s = empirical_size r0).
  { intros ns nt bw al s r0 wa wb Hc Hs.
    apply calibrate_test_ok_inv in Hc as [_ [_ [_ [Hr _]]]]. subst r0.
    cbn [empirical_size result_of]. unfold sweep_rate. f_equal.
    apply tally_ext. intros t. now apply sweep_trial_at_zero. }
  apply power_curve_sweep_ok_inv in Hsweep as [Hpts _].
  split; [|split; [|split]].
  - subst pts. rewrite map_map. cbn [fst]. apply map_id.
  - intros s t Hs. split; [|reflexivity].
    now rewrite sweep_trial_at_zero.
  - intros s rate Hin Hs. subst pts.
    apply in_map_iff in Hin as [s' [Heq _]]. inversion Heq; subst.
    now apply (Hrate n_samples n_trials bandwidth alpha s r w2 w2').
  - intros w3 pts' w3' w4 r' w4' Hpc Hcal'.
    apply power_curve_ok_inv in Hpc as [wa [wb Hpc]].
    apply power_curve_sweep_ok_inv in Hpc as [Hpts' _]. subst pts'.
    cbn [map hd_error]. f_equal. f_equal.
    now apply (Hrate 200%nat 200 0.1%float 0.05%float 0%float r' w4 w4').
Qed.

(** A sample sweep against the sample calibration. *)
Lemma sweep_at_zero_is_the_empirical_size_witness :
  exists w1' w2',
    @power_curve_sweep Sample.numpy Sample.regression Sample.formatting
      "white" [0; 0.5; 2]%float 40 40 0.1 0.05 Sample.world0 = (Ok Run.points, w1') /\
    @calibrate_test Sample.numpy Sample.regression Sample.formatting
      "white" 40 40 0.05 0.1 Sample.world0 = (Ok Run.result, w2') /\
    forall s rate, In (s, rate) Run.points -> (s =? 0)%float = true ->
                   rate = empirical_size Run.result.
Proof.
  pose proof (pair_of_fst _ _ sample_sweep) as E1.
  pose proof (pair_of_fst _ _ sample_calibration) as E2.
  eexists. eexists. split; [exact E1|]. split; [exact E2|].
  apply (sweep_at_zero_is_the_empirical_size _ _ _ _ _ _ _ _ _ _ _ _ _ _ _ E1 E2).
Defined.

(** ** The suite *)

Section SuiteFacts.

Context {NP : Numpy} {KR : KernelRegression} {FMT : Formatting}.

Lemma bind_cong {A B : Type} (m1 m2 : M A) (k1 k2 : A -> M B) w :
  m1 w = m2 w -> (forall a w1, k1 a w1 = k2 a w1) ->
  bind m1 k1 w = bind m2 k2 w.
Proof.
  intros Hm Hk. unfold bind. rewrite Hm.
  destruct (m2 w) as [[a|e] w1]; auto.
Qed.

Lemma bind_print {B : Type} s (k : unit -> M B) w :
  bind (print s) k w = k tt (write [(s ++ nl)%string] w).
Proof. reflexivity. Qed.

Lemma analysis_ok results w : exists w', analysis results w = (Ok tt, w').
Proof.
  destruct (passing_tests results) as [|p ps] eqn:E.
  - eexists. now apply analysis_none_pass.
  - assert (Hne : passing_tests results <> []) by (rewrite E; discriminate).
    destruct (max_by_spec margin _ Hne) as [best [Hbest _]].
    eexists. exact (analysis_some_pass _ _ _ Hne Hbest).
Qed.

(** The three calibrations of the suite, in order. *)
Lemma run_full_calibration_ok_inv w results w' :
  run_full_calibration w = (Ok results, w') ->
  exists r1 r2 r3 w1 w2 w3 w4,
    calibrate_test "breusch_pagan" 200 500 0.05 0.1 w1 = (Ok r1, w2) /\
    calibrate_test "white" 200 500 0.05 0.1 w2 = (Ok r2, w3) /\
    calibrate_test "dette_munk_wagner" 200 500 0.05 0.1 w3 = (Ok r3, w4) /\
    results = [r1; r2; r3].
Proof.
  unfold run_full_calibration. intros H.
  do 9 (apply bind_ok_inv in H as [? [? [_ H]]]).
  apply bind_ok_inv in H as [rs [wr [Hloop H]]].
  do 11 (apply bind_ok_inv in H as [? [? [_ H]]]).
  unfold ret in H. inversion H; subst. clear H.
  unfold tests in Hloop. cbn [for_each] in Hloop.
  apply bind_ok_inv in Hloop as [a1 [w2 [H1 Hloop]]].
  apply bind_ok_inv in H1 as [r1 [w2' [H1 Hr1]]].
  unfold ret in Hr1. inversion Hr1; subst. clear Hr1.
  apply bind_ok_inv in Hloop as [a2 [w3 [H2 Hloop]]].
  apply bind_ok_inv in H2 as [r2 [w3' [H2 Hr2]]].
  unfold ret in Hr2. inversion Hr2; subst. clear Hr2.
  apply bind_ok_inv in Hloop as [a3 [w4 [H3 Hloop]]].
  apply bind_ok_inv in H3 as [r3 [w4' [H3 Hr3]]].
  unfold ret in Hr3. inversion Hr3; subst. clear Hr3.
  unfold ret in Hloop. inversion Hloop; subst.
  exists r1, r2, r3. do 4 eexists. repeat split; eauto.
Qed.

Lemma completes_ret {A : Type} (a : A) : completes (ret a).
Proof. intros w. now exists a, w. Qed.

Lemma completes_print s : completes (print s).
Proof. intros w. eexists. eexists. reflexivity. Qed.

Lemma completes_bind {A B : Type} (m : M A) (k : A -> M B) :
  completes m -> (forall a, completes (k a)) -> completes (bind m k).
Proof.
  intros Hm Hk w. destruct (Hm w) as [a [w1 H1]].
  destruct (Hk a w1) as [b [w2 H2]].
  exists b, w2. now rewrite (bind_ok _ _ _ _ _ H1).
Qed.

Lemma completes_for_each {A S : Type} (l : list A) (body : A -> S -> M S) :
  (forall x acc, In x l -> completes (body x acc)) ->
  forall acc, completes (for_each l body acc).
Proof.
  induction l as [|x r IH]; intros Hbody acc; simpl.
  - apply completes_ret.
  - apply completes_bind.
    + apply Hbody. now left.
    + intros acc1. apply IH. intros y acc2 Hy. apply Hbody. now right.
Qed.

Lemma completes_analysis results : completes (analysis results).
Proof. intros w. destruct (analysis_ok results w) as [w' H]. now exists tt, w'. Qed.

(** The suite returns as soon as no fit raises in its three calibrations. *)
Lemma run_full_calibration_completes :
  (forall name t, In name tests ->
     fit_ok (size_trial name 200 0.05 0.1 t) = true /\
     fit_ok (power_trial name 200 0.05 0.1 t) = true) ->
  completes run_full_calibration.
Proof.
  intros Hfit.
  assert (Hcal : forall name, In name tests ->
             completes (calibrate_test name 200 500 0.05 0.1)).
  { intros name Hin w0.
    destruct (calibrate_test_completes name 200 500 0.05 0.1 w0) as [w1 [Hrun _]].
    - lia.
    - apply forallb_forall. intros t _. now apply Hfit.
    - apply forallb_forall. intros t _. now apply Hfit.
    - eauto. }
  unfold run_full_calibration.
  do 9 (apply completes_bind; [apply completes_print | intros _]).
  apply completes_bind.
  - apply completes_for_each. intros name acc Hin.
    apply completes_bind; [now apply Hcal | intros r; apply completes_ret].
  - intros results.
    do 5 (apply completes_bind; [apply completes_print | intros _]).
    apply completes_bind.
    { apply completes_for_each. intros r acc _. apply completes_print. }
    intros _.
    do 4 (apply completes_bind; [apply completes_print | intros _]).
    apply completes_bind; [apply completes_analysis | intros _].
    apply completes_ret.
Qed.

(** A calibration calls the test under its own name only: another test
    function that agrees on that name changes nothing. *)
Lemma calibrate_test_with_test test' name n_samples n_trials alpha bandwidth w :
  (forall m X y a, test' m X y name a = heteroscedasticity_test m X y name a) ->
  @calibrate_test NP (with_test test') FMT name n_samples n_trials alpha bandwidth w
  = @calibrate_test NP KR FMT name n_samples n_trials alpha bandwidth w.
Proof.
  intros Hsame.
  assert (Hsize : forall w0,
             @size_arm NP (with_test test') name n_samples n_trials alpha bandwidth w0
             = @size_arm NP KR name n_samples n_trials alpha bandwidth w0).
  { intros w0. unfold size_arm. apply for_each_ext. intros t acc w1 _.
    apply bind_ext. intros [X y] w2.
    unfold bind, lift, try_except. cbn.
    destruct (fit bandwidth X y) as [m|e]; [|reflexivity].
    now rewrite Hsame. }
  assert (Hpower : forall w0,
             @power_arm NP (with_test test') name n_samples n_trials alpha bandwidth w0
             = @power_arm NP KR name n_samples n_trials alpha bandwidth w0).
  { intros w0. unfold power_arm. apply for_each_ext. intros t acc w1 _.
    apply bind_ext. intros [X y] w2.
    unfold bind, lift, try_except. cbn.
    destruct (fit bandwidth X y) as [m|e]; [|reflexivity].
    now rewrite Hsame. }
  rewrite (@calibrate_test_unfold NP (with_test test') FMT).
  rewrite (@calibrate_test_unfold NP KR FMT).
  rewrite Hsize.
  destruct (size_arm _ _ _ _ _ _) as [[fp|e] w2]; [|reflexivity].
  destruct (int_truediv fp n_trials) as [es|e]; [|reflexivity].
  now rewrite Hpower.
Qed.

Lemma run_full_calibration_with_test test' w :
  (forall m X y name a, In name tests ->
     test' m X y name a = heteroscedasticity_test m X y name a) ->
  @run_full_calibration NP (with_test test') FMT w
  = @run_full_calibration NP KR FMT w.
Proof.
  intros Hsame. unfold run_full_calibration.
  do 9 (apply bind_ext; intros _ ?).
  apply bind_cong; [|reflexivity].
  apply for_each_ext. intros name acc wl Hin.
  apply bind_cong; [|reflexivity].
  apply calibrate_test_with_test. intros. now apply Hsame.
Qed.

End SuiteFacts.

Lemma sample_fit_never_raises name alpha bandwidth d :
  fit_ok (@run_trial Sample.regression name alpha bandwidth d) = true.
Proof.
  unfold run_trial. destruct d as [X y]. cbn.
  destruct (Sample.spread_test y name alpha); reflexivity.
Qed.

(** C10.  When [run_full_calibration] returns, what it returns is the
    list of the results of three calls of [calibrate_test], with 200
    samples and 500 trials, for "breusch_pagan", "white" and
    "dette_munk_wagner", made in that order, each from the state the
    previous one left; the names of the results are these three, in that
    order, and "goldfeld_quandt" is not among them.  The suite never runs
    the test of another name: with any other test function that agrees on
    the three names it returns the same results and writes the same text. *)
Theorem suite_calibrates_three_tests_in_order :
  forall (NP : Numpy) (KR : KernelRegression) (FMT : Formatting)
         (w : world) (results : list CalibrationResult) (w' : world),
    run_full_calibration w = (Ok results, w') ->
    (exists r1 r2 r3 w1 w2 w3 w4,
        calibrate_test "breusch_pagan" 200 500 0.05 0.1 w1 = (Ok r1, w2) /\
        calibrate_test "white" 200 500 0.05 0.1 w2 = (Ok r2, w3) /\
        calibrate_test "dette_munk_wagner" 200 500 0.05 0.1 w3 = (Ok r3, w4) /\
        results = [r1; r2; r3]) /\
    map test_name results = ["breusch_pagan"; "white"; "dette_munk_wagner"]%string /\
    ~ In "goldfeld_quandt"%string (map test_name results) /\
    (forall test',
        (forall m X y name a, name <> "goldfeld_quandt"%string ->
           test' m X y name a = heteroscedasticity_test m X y name a) ->
        @run_full_calibration NP (with_test test') FMT w = (Ok results, w')).
Proof.
  intros NP KR FMT w results w' H.
  destruct (run_full_calibration_ok_inv w results w' H)
    as [r1 [r2 [r3 [w1 [w2 [w3 [w4 [H1 [H2 [H3 Hres]]]]]]]]]].
  assert (Hnames : map test_name results
                   = ["breusch_pagan"; "white"; "dette_munk_wagner"]%string).
  { apply calibrate_test_ok_inv in H1 as [_ [_ [_ [Hr1 _]]]].
    apply calibrate_test_ok_inv in H2 as [_ [_ [_ [Hr2 _]]]].
    apply calibrate_test_ok_inv in H3 as [_ [_ [_ [Hr3 _]]]].
    subst. reflexivity. }
  split; [|split; [|split]].
  - exists r1, r2, r3, w1, w2, w3, w4. auto.
  - exact Hnames.
  - rewrite Hnames. simpl. intros [E|[E|[E|[]]]]; discriminate.
  - intros test' Hsame. rewrite <- H.
    apply run_full_calibration_with_test.
    intros m X y name a Hin. apply Hsame.
    unfold tests in Hin. simpl in Hin.
    destruct Hin as [<-|[<-|[<-|[]]]]; discriminate.
Qed.

(** The suite on the sample package, whose fit never raises. *)
Lemma suite_calibrates_three_tests_in_order_witness :
  exists results w',
    @run_full_calibration Sample.numpy Sample.regression Sample.formatting
      Sample.world0 = (Ok results, w') /\
    map test_name results = ["breusch_pagan"; "white"; "dette_munk_wagner"]%string.
Proof.
  destruct (@run_full_calibration_completes Sample.numpy Sample.regression
              Sample.formatting) with (w := Sample.world0) as [results [w' E]].
  - intros name t _. split; apply sample_fit_never_raises.
  - exists results, w'. split; [exact E|].
    apply (suite_calibrates_three_tests_in_order _ _ _ _ _ _ E).
Defined.

(** ** More on binary64: the order, and products with 40 *)

Section Binary64Order.

Ltac sf_order :=
  unfold SFeqb, SFltb, SFleb, SFcompare;
  repeat match goal with
         | a : spec_float |- _ => destruct a as [[]|[]| |[] ? ?]
         end;
  try discriminate; try reflexivity; intros;
  repeat match goal with
         | H : context [Pos.compare_cont Eq ?p ?q] |- _ =>
             change (Pos.compare_cont Eq p q) with (Pos.compare p q) in H
         | |- context [Pos.compare_cont Eq ?p ?q] =>
             change (Pos.compare_cont Eq p q) with (Pos.compare p q)
         end;
  repeat match goal with
         | H : context [Z.compare ?x ?y] |- _ => destruct (Z.compare_spec x y)
         | |- context [Z.compare ?x ?y] => destruct (Z.compare_spec x y)
         end;
  try discriminate; try reflexivity; try lia; subst;
  repeat match goal with
         | H : context [Pos.compare ?x ?y] |- _ => destruct (Pos.compare_spec x y)
         | |- context [Pos.compare ?x ?y] => destruct (Pos.compare_spec x y)
         end;
  simpl in *; try discriminate; try reflexivity; try lia.

Lemma SFleb_trans a b c : SFleb a b = true -> SFleb b c = true -> SFleb a c = true.
Proof. sf_order. Qed.


Lemma SFltb_of_not_leb a b :
  SFeqb a a = true -> SFeqb b b = true -> SFleb a b = false -> SFltb b a = true.
Proof. sf_order. Qed.

Lemma SFleb_number a b : SFleb a b = true -> SFeqb a a = true /\ SFeqb b b = true.
Proof. intros H. split; revert H; sf_order. Qed.

Lemma SFltb_leb a b : SFltb a b = true -> SFleb a b = true.
Proof. sf_order. Qed.

Lemma SFltb_not_leb a b : SFltb a b = true -> SFleb b a = false.
Proof. sf_order. Qed.

Lemma leb_trans (x y z : float) :
  (x <=? y)%float = true -> (y <=? z)%float = true -> (x <=? z)%float = true.
Proof. rewrite !leb_spec. apply SFleb_trans. Qed.


Lemma ltb_of_not_leb (x y : float) :
  (x =? x)%float = true -> (y =? y)%float = true ->
  (x <=? y)%float = false -> (y <? x)%float = true.
Proof. rewrite !eqb_spec, ltb_spec, leb_spec. apply SFltb_of_not_leb. Qed.

Lemma leb_number (x y : float) :
  (x <=? y)%float = true -> (x =? x)%float = true /\ (y =? y)%float = true.
Proof. rewrite !eqb_spec, leb_spec. apply SFleb_number. Qed.

Lemma ltb_not_leb (x y : float) :
  (x <? y)%float = true -> (y <=? x)%float = false.
Proof. rewrite ltb_spec, leb_spec. apply SFltb_not_leb. Qed.

(** Rounding a value of at most 40: the result is a zero or a positive
    finite number below 41 with a negative exponent. *)
Lemma binary_round_aux_below_41 m e l :
  0 <= m -> m <= 40 * 2 ^ (- e) -> e <= -47 ->
  binary_round_aux prec emax false m e l = S754_zero false \/
  exists m2 e2,
    binary_round_aux prec emax false m e l = S754_finite false m2 e2 /\
    e2 < 0 /\ Zpos m2 < 41 * 2 ^ (- e2).
Proof.
  intros Hm Hle He.
  assert (Hpe : 0 < 2 ^ (- e)) by (apply Z.pow_pos_nonneg; lia).
  pose proof (Zdigits2_nonneg m Hm) as Hd0.
  assert (Hd : Zdigits2 m + e <= 6).
  { pose proof (Zdigits2_le_of_lt m (6 - e) ltac:(lia)) as H.
    assert (m < 2 ^ (6 - e)).
    { replace (6 - e) with (6 + - e) by lia. rewrite Z.pow_add_r by lia.
      change (2 ^ 6) with 64. lia. }
    lia. }
  unfold binary_round_aux.
  destruct (shr_fexp_spec m e l Hm) as [Hm1 He1].
  destruct (shr_fexp prec emax m e l) as [mrs1 e1]. cbn [fst snd] in Hm1, He1.
  set (m1 := shr_m mrs1) in *.
  set (m1' := round_nearest_even m1 (loc_of_shr_record mrs1)).
  pose proof (round_nearest_even_bounds m1 (loc_of_shr_record mrs1)) as Hr.
  fold m1' in Hr.
  rewrite fexp_eq in Hm1, He1.
  set (n1 := Z.max 0 (Z.max (Zdigits2 m + e - 53) (-1074) - e)) in *.
  assert (Hn1 : 0 <= n1) by (subst n1; lia).
  assert (He1' : e1 <= -47) by (subst n1; lia).
  assert (Hp1 : 0 < 2 ^ (- e1)) by (apply Z.pow_pos_nonneg; lia).
  assert (Hpn1 : 0 < 2 ^ n1) by (apply Z.pow_pos_nonneg; lia).
  assert (Hsplit : 2 ^ (- e) = 2 ^ (- e1) * 2 ^ n1).
  { rewrite <- Z.pow_add_r by lia. f_equal. lia. }
  assert (Hm1b : 0 <= m1 <= 40 * 2 ^ (- e1)).
  { rewrite Hm1. split.
    - apply Z.div_pos; lia.
    - apply Z.div_le_upper_bound; [lia|]. nia. }
  assert (Hbig : 2 ^ 47 <= 2 ^ (- e1)) by (apply Z.pow_le_mono_r; lia).
  assert (Hm1'b : 0 <= m1' < 41 * 2 ^ (- e1)).
  { change (2 ^ 47) with 140737488355328 in Hbig. lia. }
  destruct (shr_fexp_spec m1' e1 loc_Exact ltac:(lia)) as [Hm2 He2].
  destruct (shr_fexp prec emax m1' e1 loc_Exact) as [mrs2 e2]. cbn [fst snd] in Hm2, He2.
  rewrite fexp_eq in Hm2, He2.
  set (n2 := Z.max 0 (Z.max (Zdigits2 m1' + e1 - 53) (-1074) - e1)) in *.
  assert (Hd1 : Zdigits2 m1' + e1 <= 6).
  { pose proof (Zdigits2_le_of_lt m1' (6 - e1) ltac:(lia)) as H.
    assert (m1' < 2 ^ (6 - e1)).
    { replace (6 - e1) with (6 + - e1) by lia. rewrite Z.pow_add_r by lia.
      change (2 ^ 6) with 64. lia. }
    lia. }
  pose proof (Zdigits2_nonneg m1' ltac:(lia)) as Hd1n.
  assert (Hn2 : 0 <= n2) by (subst n2; lia).
  assert (He2' : e2 <= -47) by (subst n2; lia).
  assert (Hp2 : 0 < 2 ^ (- e2)) by (apply Z.pow_pos_nonneg; lia).
  assert (Hpn2 : 0 < 2 ^ n2) by (apply Z.pow_pos_nonneg; lia).
  assert (Hsplit2 : 2 ^ (- e1) = 2 ^ (- e2) * 2 ^ n2).
  { rewrite <- Z.pow_add_r by lia. f_equal. lia. }
  assert (Hm2b : 0 <= shr_m mrs2 < 41 * 2 ^ (- e2)).
  { rewrite Hm2. split.
    - apply Z.div_pos; lia.
    - apply Z.div_lt_upper_bound; [lia|]. nia. }
  destruct (shr_m mrs2) as [|p|p] eqn:Ep; [now left| |lia].
  right. exists p, e2.
  assert (Hb : (e2 <=? emax - prec) = true).
  { apply Z.leb_le. change (emax - prec) with 971. lia. }
  rewrite Hb. repeat split; lia.
Qed.

Lemma int_of_float_below_41 x m2 e2 :
  Prim2SF x = S754_finite false m2 e2 ->
  e2 < 0 -> Zpos m2 < 41 * 2 ^ (- e2) ->
  exists z, int_of_float x = Ok z /\ 0 <= z <= 40.
Proof.
  intros Hx He Hm. unfold int_of_float. rewrite Hx.
  destruct e2 as [|q|q]; try lia.
  eexists. split; [reflexivity|].
  rewrite Z.shiftr_div_pow2 by lia.
  change (- Z.neg q) with (Z.pos q) in Hm.
  assert (0 < 2 ^ Z.pos q) by (apply Z.pow_pos_nonneg; lia).
  split.
  - apply Z.div_pos; lia.
  - assert (Z.pos m2 / 2 ^ Z.pos q < 41); [|lia].
    apply Z.div_lt_upper_bound; lia.
Qed.

(** A canonical mantissa has at most 53 digits. *)
Lemma bounded_mantissa m e : bounded prec emax m e = true -> Zpos m < 2 ^ 53.
Proof.
  unfold bounded, canonical_mantissa. intros H.
  apply andb_true_iff in H as [H _]. apply Z.eqb_eq in H. rewrite fexp_eq in H.
  destruct (Zdigits2_bounds (Zpos m) ltac:(lia)) as [_ Hhi].
  change (Zdigits2 (Z.pos m)) with (Z.pos (digits2_pos m)) in Hhi.
  assert (2 ^ Z.pos (digits2_pos m) <= 2 ^ 53) by (apply Z.pow_le_mono_r; lia).
  lia.
Qed.

(** [int(rate * 40)] for a rate [k / n] of the script: it never raises and
    lies between 0 and 40. *)
Lemma bar_count_bounds k n :
  n <> 0 -> (0 < n -> 0 <= k <= n) -> (n < 0 -> k = 0) ->
  exists z, int_of_float (quotient k n * 40)%float = Ok z /\ 0 <= z <= 40.
Proof.
  intros Hn Hpos Hneg.
  destruct (Z_lt_le_dec n 0) as [Hlt|Hge].
  - rewrite (Hneg Hlt). destruct n as [|p|p]; try lia.
    exists 0. split; [vm_compute; reflexivity | lia].
  - assert (H0 : 0 < n) by lia. specialize (Hpos H0).
    assert (Hcases : k = 0 \/ k = n \/ 0 < k < n) by lia.
    destruct Hcases as [->|[->|Hk]].
    + unfold quotient. rewrite SF64div_int_zero by assumption.
      exists 0. split; [vm_compute; reflexivity | lia].
    + unfold quotient. rewrite SF64div_int_self by assumption.
      exists 40. split; [vm_compute; reflexivity | lia].
    + unfold quotient.
      destruct (SF64div_int_lt k n Hk) as [E|[m2 [e2 [E [Hb Hle]]]]]; rewrite E.
      * exists 0. split; [vm_compute; reflexivity | lia].
      * pose proof (bounded_mantissa _ _ Hb) as Hm53.
        assert (Hm : Zpos m2 <= 2 ^ (- e2) /\ e2 <= -52).
        { destruct Hle as [He|[-> Hm]].
          - split; [|lia].
            assert (2 ^ 53 <= 2 ^ (- e2)) by (apply Z.pow_le_mono_r; lia). lia.
          - rewrite Hm. simpl. lia. }
        destruct Hm as [Hm He].
        assert (Hprod : Prim2SF (SF2Prim (S754_finite false m2 e2) * 40)%float
                        = binary_round_aux prec emax false
                            (Zpos (m2 * 5629499534213120)) (e2 + -47) loc_Exact).
        { rewrite mul_spec, Prim2SF_SF2Prim by exact Hb.
          replace (Prim2SF 40) with (S754_finite false 5629499534213120 (-47))
            by (vm_compute; reflexivity).
          reflexivity. }
        assert (Hp : 0 < 2 ^ (- e2)) by (apply Z.pow_pos_nonneg; lia).
        destruct (binary_round_aux_below_41 (Zpos (m2 * 5629499534213120))
                    (e2 + -47) loc_Exact) as [Hz|[m3 [e3 [Hf [He3 Hm3]]]]].
        -- lia.
        -- replace (- (e2 + -47)) with (47 + - e2) by lia.
           rewrite Z.pow_add_r by lia.
           change (2 ^ 47) with 140737488355328.
           rewrite Pos2Z.inj_mul. nia.
        -- lia.
        -- exists 0. split; [|lia].
           unfold int_of_float. now rewrite Hprod, Hz.
        -- apply (int_of_float_below_41 _ m3 e3); auto.
           now rewrite Hprod.
Qed.

End Binary64Order.

(** ** Reproducibility *)

Section Reproducibility.

Context {NP : Numpy} {KR : KernelRegression} {FMT : Formatting}.

Lemma reproducible_ret {A : Type} (a : A) : reproducible (ret a).
Proof.
  intros w1 w2. split; [reflexivity|]. exists []. cbn. now rewrite !app_nil_r.
Qed.

Lemma reproducible_lift {A : Type} (o : outcome A) : reproducible (lift o).
Proof.
  intros w1 w2. split; [reflexivity|]. exists []. cbn. now rewrite !app_nil_r.
Qed.

Lemma reproducible_print s : reproducible (print s).
Proof.
  intros w1 w2. split; [reflexivity|]. now exists [(s ++ nl)%string].
Qed.

Lemma reproducible_print_noend s : reproducible (print_noend s).
Proof.
  intros w1 w2. split; [reflexivity|]. now exists [s].
Qed.

Lemma reproducible_bind {A B : Type} (m : M A) (k : A -> M B) :
  reproducible m -> (forall a, reproducible (k a)) -> reproducible (bind m k).
Proof.
  intros Hm Hk w1 w2. destruct (Hm w1 w2) as [Hfst [d [H1 H2]]].
  unfold bind.
  destruct (m w1) as [[a1|e1] u1], (m w2) as [[a2|e2] u2];
    cbn [fst snd] in *; try discriminate.
  - inversion Hfst; subst a2.
    destruct (Hk a1 u1 u2) as [Hk1 [d' [H1' H2']]].
    split; [exact Hk1|]. exists (d ++ d')%list.
    rewrite H1', H2', H1, H2, !app_assoc. auto.
  - inversion Hfst; subst e2. split; [reflexivity|]. exists d. auto.
Qed.

Lemma reproducible_try {A : Type} (body : M A) (handler : exn -> M A) :
  reproducible body -> (forall e, reproducible (handler e)) ->
  reproducible (try_except body handler).
Proof.
  intros Hb Hh w1 w2. destruct (Hb w1 w2) as [Hfst [d [H1 H2]]].
  unfold try_except.
  destruct (body w1) as [[a1|e1] u1], (body w2) as [[a2|e2] u2];
    cbn [fst snd] in *; try discriminate.
  - inversion Hfst; subst a2. split; [reflexivity|]. exists d. auto.
  - inversion Hfst; subst e2.
    destruct (Hh e1 u1 u2) as [Hk1 [d' [H1' H2']]].
    split; [exact Hk1|]. exists (d ++ d')%list.
    rewrite H1', H2', H1, H2, !app_assoc. auto.
Qed.

Lemma reproducible_for_each {A S : Type} (l : list A) (body : A -> S -> M S) :
  (forall x acc, reproducible (body x acc)) ->
  forall acc, reproducible (for_each l body acc).
Proof.
  intros Hbody. induction l as [|x r IH]; intros acc; simpl.
  - apply reproducible_ret.
  - apply reproducible_bind; auto.
Qed.

(** The generators reseed before they draw. *)
Lemma reproducible_homoscedastic n seed :
  reproducible (generate_nonlinear_homoscedastic n seed).
Proof.
  intros w1 w2. rewrite !generate_nonlinear_homoscedastic_eq. cbn.
  split; [reflexivity|]. exists []. now rewrite !app_nil_r.
Qed.

Lemma reproducible_trumpet n seed strength :
  reproducible (generate_trumpet n seed strength).
Proof.
  intros w1 w2. rewrite !generate_trumpet_eq. cbn.
  split; [reflexivity|]. exists []. now rewrite !app_nil_r.
Qed.

Ltac reproduce_step :=
  lazymatch goal with
  | |- reproducible (ret _) => apply reproducible_ret
  | |- reproducible (lift _) => apply reproducible_lift
  | |- reproducible (print _) => apply reproducible_print
  | |- reproducible (print_noend _) => apply reproducible_print_noend
  | |- reproducible (generate_nonlinear_homoscedastic _ _) =>
      apply reproducible_homoscedastic
  | |- reproducible (generate_trumpet _ _ _) => apply reproducible_trumpet
  | |- reproducible (try_except _ _) => apply reproducible_try; [|intros ?]
  | |- reproducible (for_each _ _ _) => apply reproducible_for_each; intros ? ?
  | |- reproducible (bind _ _) => apply reproducible_bind; [|intros ?]
  | |- reproducible (match ?p with (_, _) => _ end) => destruct p
  | |- reproducible (if ?b then _ else _) => destruct b
  | |- reproducible (match ?l with [] => _ | _ :: _ => _ end) => destruct l
  end.

Ltac reproduce := repeat reproduce_step.

Lemma reproducible_calibrate_test name n_samples n_trials alpha bandwidth :
  reproducible (calibrate_test name n_samples n_trials alpha bandwidth).
Proof. unfold calibrate_test, size_arm, power_arm. cbv zeta. reproduce. Qed.

Lemma reproducible_analysis results : reproducible (analysis results).
Proof. unfold analysis. cbv zeta. reproduce. Qed.

Lemma reproducible_run_full_calibration : reproducible run_full_calibration.
Proof.
  unfold run_full_calibration.
  repeat first [ reproduce_step
               | apply reproducible_calibrate_test
               | apply reproducible_analysis ].
Qed.

Lemma reproducible_power_curve name : reproducible (power_curve name).
Proof. unfold power_curve, power_curve_sweep, sweep_arm. cbv zeta. reproduce. Qed.

End Reproducibility.

Lemma reproducible_main {NP : Numpy} {KR : KernelRegression} {FMT : Formatting} :
  reproducible main.
Proof.
  unfold main.
  apply reproducible_bind; [apply reproducible_run_full_calibration | intros results].
  apply reproducible_bind; [apply reproducible_print | intros u].
  apply reproducible_bind; [apply reproducible_power_curve | intros pts].
  apply reproducible_ret.
Qed.

(** X1.  What the script computes and writes is the same on every run.
    Every dataset is generated right after the generator is reseeded, so
    for [calibrate_test], [run_full_calibration], [power_curve] and the
    script as a whole, started in any two states of numpy's generator and
    after any text written before, the outcome (the value returned or the
    exception raised) is the same and the text added to the output is the
    same.  (The calls into the regression package are functions of their
    arguments.) *)
Theorem script_is_reproducible :
  forall (NP : Numpy) (KR : KernelRegression) (FMT : Formatting),
    (forall name n_samples n_trials alpha bandwidth,
        reproducible (calibrate_test name n_samples n_trials alpha bandwidth)) /\
    reproducible run_full_calibration /\
    (forall name, reproducible (power_curve name)) /\
    reproducible main /\
    (forall (w1 w2 : world),
        fst (main w1) = fst (main w2) /\
        exists added,
          stdout (snd (main w1)) = (stdout w1 ++ added)%list /\
          stdout (snd (main w2)) = (stdout w2 ++ added)%list).
Proof.
  intros NP KR FMT. split; [|split; [|split; [|split]]].
  - intros. apply reproducible_calibrate_test.
  - apply reproducible_run_full_calibration.
  - intros. apply reproducible_power_curve.
  - apply reproducible_main.
  - intros w1 w2. exact (reproducible_main w1 w2).
Qed.

(** ** Degenerate trial counts *)

Section TrialCounts.

Context {NP : Numpy} {KR : KernelRegression} {FMT : Formatting}.

Lemma range_nonpos n : n <= 0 -> range n = [].
Proof. intros Hn. unfold range. now replace (Z.to_nat n) with 0%nat by lia. Qed.


Lemma quotient_zero_neg n : n < 0 -> quotient 0 n = neg_zero.
Proof. intros Hn. destruct n; try lia. reflexivity. Qed.

Lemma size_arm_no_trials name n_samples n_trials alpha bandwidth w :
  n_trials <= 0 -> size_arm name n_samples n_trials alpha bandwidth w = (Ok 0, w).
Proof. intros Hn. unfold size_arm. now rewrite range_nonpos. Qed.

Lemma power_arm_no_trials name n_samples n_trials alpha bandwidth w :
  n_trials <= 0 -> power_arm name n_samples n_trials alpha bandwidth w = (Ok 0, w).
Proof. intros Hn. unfold power_arm. now rewrite range_nonpos. Qed.

Lemma sweep_arm_no_trials name strength n_samples n_trials alpha bandwidth w :
  n_trials <= 0 ->
  sweep_arm name strength n_samples n_trials alpha bandwidth w = (Ok 0, w).
Proof. intros Hn. unfold sweep_arm. now rewrite range_nonpos. Qed.

Lemma write_write l1 l2 (w : world) : write l2 (write l1 w) = write (l1 ++ l2) w.
Proof. unfold write. cbn. now rewrite app_assoc. Qed.


Lemma calibrate_test_negative_trials name n_samples n_trials alpha bandwidth w :
  n_trials < 0 ->
  calibrate_test name n_samples n_trials alpha bandwidth w
  = (Ok (result_of name alpha neg_zero neg_zero),
     write (header_lines name n_samples n_trials alpha
              ++ size_lines neg_zero ++ power_lines neg_zero) w).
Proof.
  intros Hn.
  rewrite calibrate_test_unfold, size_arm_no_trials by lia.
  rewrite int_truediv_ok by lia. rewrite quotient_zero_neg by assumption.
  rewrite power_arm_no_trials by lia.
  rewrite int_truediv_ok by lia. rewrite quotient_zero_neg by assumption.
  now rewrite !write_write.
Qed.

Lemma power_curve_sweep_zero_trials name s rest n_samples bandwidth alpha w :
  power_curve_sweep name (s :: rest) n_samples 0 bandwidth alpha w
  = (Raise ZeroDivisionError, w).
Proof.
  unfold power_curve_sweep. cbn [for_each]. unfold bind at 1. unfold bind at 1.
  rewrite sweep_arm_no_trials by lia. reflexivity.
Qed.

End TrialCounts.

(** X2.  With [n_trials = 0] neither [calibrate_test] nor the loop of
    [power_curve] (its local [n_trials] taken as a parameter) returns a
    rate: [calibrate_test] writes its six heading lines, runs no trial
    and raises ZeroDivisionError at [false_positives / n_trials]; the
    loop raises it at the first strength, before it has written a row.
    Only a loop over no strength at all returns. *)
Theorem zero_trials_raise_division_by_zero :
  forall (NP : Numpy) (KR : KernelRegression) (FMT : Formatting)
         (name : string) (n_samples : nat) (alpha bandwidth : float) (w : world),
    calibrate_test name n_samples 0 alpha bandwidth w
    = (Raise ZeroDivisionError, write (header_lines name n_samples 0 alpha) w) /\
    List.length (header_lines name n_samples 0 alpha) = 6%nat /\
    (forall s rest,
        power_curve_sweep name (s :: rest) n_samples 0 bandwidth alpha w
        = (Raise ZeroDivisionError, w)) /\
    power_curve_sweep name [] n_samples 0 bandwidth alpha w = (Ok [], w).
Proof.
  intros. split; [|split; [reflexivity|split]].
  - rewrite calibrate_test_unfold.
    rewrite size_arm_no_trials by lia.
    unfold int_truediv. reflexivity.
  - intros s rest. apply power_curve_sweep_zero_trials.
  - reflexivity.
Qed.

(** X3.  A negative [n_trials] is not refused.  [range(n_trials)] is
    empty, so no dataset is generated (numpy's generator is left as it
    was) and both counts stay 0; [0 / n_trials] is the float [-0.0], so
    the call returns with both rates [-0.0] and both flags false, having
    reported the size as OVERSIZED and too low. *)
Theorem negative_trial_count_gives_zero_rates :
  forall (NP : Numpy) (KR : KernelRegression) (FMT : Formatting)
         (name : string) (n_samples : nat) (n_trials : Z) (alpha bandwidth : float)
         (w : world),
    n_trials < 0 ->
    exists r w',
      calibrate_test name n_samples n_trials alpha bandwidth w = (Ok r, w') /\
      empirical_size r = neg_zero /\ power r = neg_zero /\
      size_calibrated r = false /\ power_adequate r = false /\
      rng w' = rng w /\
      stdout w' = (stdout w ++ header_lines name n_samples n_trials alpha
                     ++ size_lines neg_zero ++ power_lines neg_zero)%list /\
      nth 1 (size_lines neg_zero) EmptyString = "      Status: OVERSIZED"%string /\
      nth 2 (size_lines neg_zero) EmptyString = (" (REJECT - too low)" ++ nl)%string /\
      nth 1 (power_lines neg_zero) EmptyString
      = ("      Status: UNDERPOWERED" ++ nl)%string.
Proof.
  intros NP KR FMT name n_samples n_trials alpha bandwidth w Hn.
  exists (result_of name alpha neg_zero neg_zero).
  eexists. split.
  - apply calibrate_test_negative_trials. exact Hn.
  - cbn [result_of empirical_size power size_calibrated power_adequate
         write rng stdout].
    repeat split; reflexivity.
Qed.

Lemma negative_trial_count_gives_zero_rates_witness :
  -5 < 0 /\
  exists r w',
    @calibrate_test Sample.numpy Sample.regression Sample.formatting
      "white" 40 (-5) 0.05 0.1 Sample.world0 = (Ok r, w') /\
    empirical_size r = neg_zero /\ size_calibrated r = false.
Proof.
  split; [lia|].
  destruct (negative_trial_count_gives_zero_rates
              Sample.numpy Sample.regression Sample.formatting
              "white" 40 (-5) 0.05 0.1 Sample.world0 ltac:(lia))
    as [r [w' [Hrun [Hes [_ [Hflag _]]]]]].
  exists r, w'. auto.
Defined.

(** ** The status lines *)

Section StatusFacts.

Context {NP : Numpy} {KR : KernelRegression} {FMT : Formatting}.

(** A rate the script computes is a number, never NaN. *)
Lemma rate_is_a_number (V : Z -> verdict) n_trials :
  n_trials <> 0 ->
  let x := quotient (tally V (range n_trials)) n_trials in
  (x =? x)%float = true.
Proof.
  intros Hn x. subst x.
  destruct (Z.lt_trichotomy n_trials 0) as [Hneg|[H0|Hpos]]; [|lia|].
  - rewrite range_nonpos by lia. unfold tally. cbn [filter List.length Z.of_nat].
    rewrite quotient_zero_neg by assumption. reflexivity.
  - pose proof (tally_bounds V (range n_trials)) as Hb.
    rewrite range_length in Hb.
    destruct (quotient_unit_interval (tally V (range n_trials)) n_trials) as [H _];
      [lia | assumption |].
    apply leb_number in H. apply H.
Qed.

Lemma perfect_band_size_band x : perfect_band x = true -> size_band x = true.
Proof.
  unfold perfect_band, size_band. intros H.
  apply andb_true_iff in H. destruct H as [Hlo Hhi].
  apply andb_true_iff. split.
  - apply (leb_trans 0.03 0.04 x); [reflexivity | exact Hlo].
  - apply (leb_trans x 0.07 0.10); [exact Hhi | reflexivity].
Qed.



End StatusFacts.

(** X4.  The two parts of the size status never contradict each other
    nor the rate they report.  When [calibrate_test] returns, what it
    wrote after the "Result" line of the size arm is one of four pairs,
    and the pair tells where the empirical size lies: CALIBRATED
    (EXCELLENT) when it is in [0.04, 0.07]; CALIBRATED (ACCEPTABLE) when
    it is in [0.03, 0.10] but below 0.04 or above 0.07; OVERSIZED (REJECT
    - too high) when it is above 0.10; OVERSIZED (REJECT - too low) when
    it is below 0.03.  The first word agrees with the flag
    [size_calibrated] of the result. *)
Theorem size_status_tells_the_range :
  forall (NP : Numpy) (KR : KernelRegression) (FMT : Formatting)
         (name : string) (n_samples : nat) (n_trials : Z) (alpha bandwidth : float)
         (w : world) (r : CalibrationResult) (w' : world),
    calibrate_test name n_samples n_trials alpha bandwidth w = (Ok r, w') ->
    let es := empirical_size r in
    exists (word remark line4 line5 : string),
      stdout w'
      = (stdout w ++ header_lines name n_samples n_trials alpha
           ++ warnings (size_trial name n_samples alpha bandwidth) (range n_trials)
           ++ [ (("      Result: " ++ format_percent 1 es ++ " false positive rate")
                   ++ nl)%string;
                ("      Status: " ++ word)%string;
                (remark ++ nl)%string;
                line4; line5 ]
           ++ power_lines (power r))%list /\
      (size_calibrated r = true <-> word = "CALIBRATED"%string) /\
      (size_calibrated r = false <-> word = "OVERSIZED"%string) /\
      ((word = "CALIBRATED"%string /\ remark = " (EXCELLENT)"%string /\
        (0.04 <=? es)%float = true /\ (es <=? 0.07)%float = true)
       \/
       (word = "CALIBRATED"%string /\ remark = " (ACCEPTABLE)"%string /\
        (0.03 <=? es)%float = true /\ (es <=? 0.10)%float = true /\
        ((es <? 0.04)%float = true \/ (0.07 <? es)%float = true))
       \/
       (word = "OVERSIZED"%string /\ remark = " (REJECT - too high)"%string /\
        (0.10 <? es)%float = true)
       \/
       (word = "OVERSIZED"%string /\ remark = " (REJECT - too low)"%string /\
        (es <? 0.03)%float = true)).
Proof.
  intros NP KR FMT name n_samples n_trials alpha bandwidth w r w' Hrun es.
  destruct (calibrate_test_ok_inv _ _ _ _ _ _ _ _ Hrun)
    as [Hn [_ [_ [Hr Hout]]]].
  pose proof (rate_is_a_number (size_trial name n_samples alpha bandwidth)
                n_trials Hn) as Hnum.
  cbv zeta in Hnum.
  assert (Hes : es = quotient (tally (size_trial name n_samples alpha bandwidth)
                                 (range n_trials)) n_trials)
    by (subst es; rewrite Hr; reflexivity).
  assert (Hpw : power r = quotient (tally (power_trial name n_samples alpha bandwidth)
                                      (range n_trials)) n_trials)
    by (rewrite Hr; reflexivity).
  assert (Hflag : size_calibrated r = size_band es)
    by (subst es; rewrite Hr; reflexivity).
  rewrite <- Hes in Hnum.
  unfold calibration_lines in Hout. cbv zeta in Hout.
  rewrite <- Hes, <- Hpw in Hout. unfold size_lines in Hout.
  rewrite Hflag.
  destruct (perfect_band es) eqn:Hperfect.
  - pose proof (perfect_band_size_band _ Hperfect) as Hsize.
    rewrite Hsize in Hout |- *.
    do 4 eexists. split; [exact Hout|].
    split; [tauto|]. split; [split; discriminate|].
    left. unfold perfect_band in Hperfect.
    apply andb_true_iff in Hperfect. tauto.
  - destruct (size_band es) eqn:Hsize.
    + do 4 eexists. split; [exact Hout|].
      split; [tauto|]. split; [split; discriminate|].
      right; left. unfold size_band in Hsize.
      apply andb_true_iff in Hsize. destruct Hsize as [Hlo Hhi].
      repeat split; try assumption.
      unfold perfect_band in Hperfect. apply andb_false_iff in Hperfect.
      destruct Hperfect as [H|H].
      * left. apply ltb_of_not_leb; [reflexivity | assumption | assumption].
      * right. apply ltb_of_not_leb; [assumption | reflexivity | assumption].
    + destruct (0.10 <? es)%float eqn:Hhigh.
      * do 4 eexists. split; [exact Hout|].
        split; [split; discriminate|]. split; [tauto|].
        right; right; left. auto.
      * do 4 eexists. split; [exact Hout|].
        split; [split; discriminate|]. split; [tauto|].
        right; right; right. repeat split.
        assert (Hle : (es <=? 0.10)%float = true)
          by (apply leb_of_not_ltb; [reflexivity | assumption | assumption]).
        unfold size_band in Hsize. rewrite Hle, andb_true_r in Hsize.
        apply ltb_of_not_leb; [reflexivity | assumption | assumption].
Qed.

Lemma size_status_tells_the_range_witness :
  exists (w' : world) (word : string),
    @calibrate_test Sample.numpy Sample.regression Sample.formatting
      "white" 40 40 0.05 0.1 Sample.world0 = (Ok Run.result, w') /\
    (word = "CALIBRATED"%string \/ word = "OVERSIZED"%string) /\
    In ("      Status: " ++ word)%string (stdout w').
Proof.
  pose proof (pair_of_fst _ _ sample_calibration) as E.
  destruct (size_status_tells_the_range _ _ _ _ _ _ _ _ _ _ _ E)
    as [word [remark [line4 [line5 [Hout [_ [_ Hcases]]]]]]].
  eexists. exists word. split; [exact E|]. split.
  - destruct Hcases as [H|[H|[H|H]]]; destruct H as [H _]; auto.
  - rewrite Hout.
    apply in_or_app; right. apply in_or_app; right. apply in_or_app; right.
    apply in_or_app; left. right. left. reflexivity.
Defined.



(** ** Ties in the choice of the best test *)

Section TieFacts.

Context {A : Type} (key : A -> float).


End TieFacts.



(** ** The rows of the power curve *)

Section CurveFacts.

Context {NP : Numpy} {KR : KernelRegression} {FMT : Formatting}.

Lemma str_repeat_length c k :
  String.length (str_repeat (String c EmptyString) k) = k.
Proof. induction k as [|k IH]; [reflexivity|]. cbn. now rewrite IH. Qed.

(** [int(rate * 40)] never raises on a rate of the script, and lies
    between 0 and 40. *)
Lemma bar_count_of_rate (V : Z -> verdict) n_trials :
  n_trials <> 0 ->
  exists z, int_of_float (quotient (tally V (range n_trials)) n_trials * 40)%float = Ok z /\
            0 <= z <= 40.
Proof.
  intros Hn. pose proof (tally_bounds V (range n_trials)) as Hb.
  rewrite range_length in Hb.
  apply bar_count_bounds; [assumption | lia |].
  intros Hneg. rewrite range_nonpos by lia. reflexivity.
Qed.

Variables (name : string) (n_samples : nat) (n_trials : Z) (bandwidth alpha : float).

Lemma sweep_loop_completes strengths :
  n_trials <> 0 ->
  forallb (sweep_decides name n_samples n_trials bandwidth alpha) strengths = true ->
  forall acc w,
  exists w',
    for_each strengths (fun strength points =>
      detections <- sweep_arm name strength n_samples n_trials alpha bandwidth ;;
      rate <- lift (int_truediv detections n_trials) ;;
      k <- lift (int_of_float (rate * 40)%float) ;;
      let bar := str_mul "#" k in
      print (ljust 12 (format_fixed 2 strength) ++ " "
             ++ ljust 20 (format_percent 1 rate) ++ " " ++ bar) ;;
      ret (points ++ [(strength, rate)])%list) acc w
    = (Ok (acc ++ map (fun s => (s, sweep_rate name n_samples n_trials bandwidth alpha s))
                      strengths)%list, w') /\
    stdout w' = (stdout w ++ map (curve_line name n_samples n_trials bandwidth alpha)
                                 strengths)%list.
Proof.
  intros Hn. induction strengths as [|s r IH]; intros Hall acc w.
  - exists w. cbn. now rewrite !app_nil_r.
  - cbn [forallb] in Hall. apply andb_true_iff in Hall. destruct Hall as [Hs Hr].
    destruct (sweep_arm_completes name n_samples alpha bandwidth s n_trials w Hs)
      as [w1 [Harm Hout1]].
    destruct (bar_count_of_rate (sweep_trial name s n_samples alpha bandwidth)
                n_trials Hn) as [z [Hz _]].
    cbn [for_each].
    match goal with |- context [for_each r ?body] => set (loop := for_each r body) end.
    unfold bind. rewrite Harm. unfold lift. rewrite int_truediv_ok by assumption.
    rewrite Hz. unfold print, ret. subst loop.
    match goal with |- context [for_each r ?body ?a ?w2] =>
      destruct (IH Hr a w2) as [w' [Hrest Hout]] end.
    exists w'. split.
    + rewrite <- app_assoc in Hrest. exact Hrest.
    + rewrite Hout. cbn [stdout map]. rewrite Hout1, <- app_assoc.
      unfold curve_line at 2, bar_of, sweep_rate. rewrite Hz. reflexivity.
Qed.

Lemma power_curve_sweep_completes strengths w :
  n_trials <> 0 ->
  forallb (sweep_decides name n_samples n_trials bandwidth alpha) strengths = true ->
  exists w',
    power_curve_sweep name strengths n_samples n_trials bandwidth alpha w
    = (Ok (map (fun s => (s, sweep_rate name n_samples n_trials bandwidth alpha s))
               strengths), w') /\
    stdout w' = (stdout w ++ map (curve_line name n_samples n_trials bandwidth alpha)
                                 strengths)%list.
Proof.
  intros Hn Hall. exact (sweep_loop_completes strengths Hn Hall [] w).
Qed.

End CurveFacts.

(** With the 200 trials of [power_curve], the bar of a rate has one "#"
    for every five detections. *)
Lemma bar_count_200 k :
  0 <= k <= 200 -> int_of_float (quotient k 200 * 40)%float = Ok (k / 5).
Proof.
  intros Hk.
  assert (Hall : forallb (fun k => match int_of_float (quotient k 200 * 40)%float with
                                   | Ok z => z =? k / 5
                                   | Raise _ => false
                                   end) (range 201) = true)
    by (vm_compute; reflexivity).
  rewrite forallb_forall in Hall.
  specialize (Hall k ltac:(apply range_In; lia)).
  destruct (int_of_float (quotient k 200 * 40)%float) as [z|e]; [|discriminate].
  apply Z.eqb_eq in Hall. now subst z.
Qed.

Lemma power_curve_unfold {NP : Numpy} {KR : KernelRegression} {FMT : Formatting}
    name w :
  power_curve name w
  = match power_curve_sweep name [0.0; 0.25; 0.5; 0.75; 1.0; 1.5; 2.0]%float
            200 200 0.1 0.05
            (write [ ((nl ++ str_repeat "=" 60) ++ nl)%string;
                     (("POWER CURVE FOR " ++ upper name) ++ nl)%string;
                     (str_repeat "=" 60 ++ nl)%string;
                     ((nl ++ "Strength = 0 means constant variance (should reject ~5%)")
                        ++ nl)%string;
                     ("Strength = 1 means variance doubles from x=0 to x=1" ++ nl)%string;
                     ((nl ++ ljust 12 "Strength" ++ " " ++ ljust 20 "Detection Rate"
                          ++ " " ++ "Bar") ++ nl)%string;
                     (str_repeat "-" 50 ++ nl)%string ] w) with
    | (Ok pts, w1) =>
        (Ok pts,
         write [ (str_repeat "-" 50 ++ nl)%string;
                 ("Note: A well-calibrated test has ~5% at strength=0," ++ nl)%string;
                 ("      increasing smoothly to >95% at high strength." ++ nl)%string ] w1)
    | (Raise e, w1) => (Raise e, w1)
    end.
Proof.
  unfold power_curve. cbv zeta.
  rewrite !bind_print. rewrite !write_write. cbn [app].
  unfold bind at 1.
  destruct (power_curve_sweep _ _ _ _ _ _ _) as [[pts|e] w1]; [|reflexivity].
  rewrite !bind_print. rewrite !write_write. reflexivity.
Qed.

Lemma power_curve_returns_iff {NP : Numpy} {KR : KernelRegression} {FMT : Formatting}
    name w :
  (exists pts w', power_curve name w = (Ok pts, w'))
  <-> forallb (sweep_decides name 200 200 0.1 0.05)
              [0.0; 0.25; 0.5; 0.75; 1.0; 1.5; 2.0]%float = true.
Proof.
  split.
  - intros [pts [w' Hrun]]. apply power_curve_ok_inv in Hrun.
    destruct Hrun as [wa [wb Hsweep]].
    apply (power_curve_sweep_ok_inv _ _ _ _ _ _ _ _ _ Hsweep).
  - intros Hall. rewrite power_curve_unfold.
    match goal with |- context [power_curve_sweep _ ?l _ _ _ _ ?w1] =>
      destruct (power_curve_sweep_completes name 200 200 0.1 0.05 l w1
                  ltac:(lia) Hall) as [w2 [Hsweep _]] end.
    rewrite Hsweep. eauto.
Qed.

(** X7.  The loop of [power_curve], with the strengths and the locals
    [n_samples], [n_trials], [bandwidth] and [alpha] taken as parameters,
    returns exactly when it has no strength to try, or
    [n_trials] is not 0 and at every strength every trial decides.  When
    it returns, it has computed for each strength, in order, the share of
    the trials in which the test rejected, and has written exactly one
    row per strength, in order, and nothing else.  Drawing a bar never
    raises: for a rate of the script [int(rate * 40)] is between 0 and
    40. *)
Theorem sweep_returns_one_row_per_strength :
  forall (NP : Numpy) (KR : KernelRegression) (FMT : Formatting)
         (name : string) (strengths : list float) (n_samples : nat) (n_trials : Z)
         (bandwidth alpha : float) (w : world),
    ((exists pts w',
         power_curve_sweep name strengths n_samples n_trials bandwidth alpha w
         = (Ok pts, w'))
     <-> strengths = [] \/
         (n_trials <> 0 /\
          forallb (sweep_decides name n_samples n_trials bandwidth alpha) strengths
          = true)) /\
    (forall pts w',
        power_curve_sweep name strengths n_samples n_trials bandwidth alpha w
        = (Ok pts, w') ->
        pts = map (fun s => (s, sweep_rate name n_samples n_trials bandwidth alpha s))
                  strengths /\
        stdout w' = (stdout w ++ map (curve_line name n_samples n_trials bandwidth alpha)
                                     strengths)%list) /\
    (n_trials <> 0 ->
     forall s,
       let rate := sweep_rate name n_samples n_trials bandwidth alpha s in
       exists k, int_of_float (rate * 40)%float = Ok k /\ 0 <= k <= 40 /\
                 bar_of rate = str_mul "#" k /\
                 (String.length (bar_of rate) <= 40)%nat).
Proof.
  intros NP KR FMT name strengths n_samples n_trials bandwidth alpha w.
  assert (Hback : strengths = [] \/
                  (n_trials <> 0 /\
                   forallb (sweep_decides name n_samples n_trials bandwidth alpha)
                           strengths = true) ->
                  exists w',
                    power_curve_sweep name strengths n_samples n_trials bandwidth alpha w
                    = (Ok (map (fun s => (s, sweep_rate name n_samples n_trials
                                                bandwidth alpha s)) strengths), w') /\
                    stdout w' = (stdout w ++ map (curve_line name n_samples n_trials
                                                    bandwidth alpha) strengths)%list).
  { intros [->|[Hn Hall]].
    - exists w. cbn. now rewrite app_nil_r.
    - now apply power_curve_sweep_completes. }
  assert (Hforth : forall pts w',
             power_curve_sweep name strengths n_samples n_trials bandwidth alpha w
             = (Ok pts, w') ->
             strengths = [] \/
             (n_trials <> 0 /\
              forallb (sweep_decides name n_samples n_trials bandwidth alpha)
                      strengths = true)).
  { intros pts w' Hrun.
    destruct strengths as [|s rest]; [now left|]. right. split.
    - intros ->. rewrite power_curve_sweep_zero_trials in Hrun. discriminate.
    - apply (power_curve_sweep_ok_inv _ _ _ _ _ _ _ _ _ Hrun). }
  split; [|split].
  - split.
    + intros [pts [w' Hrun]]. exact (Hforth pts w' Hrun).
    + intros H. destruct (Hback H) as [w' [Hrun _]]. eauto.
  - intros pts w' Hrun.
    destruct (Hback (Hforth pts w' Hrun)) as [w2 [Hrun2 Hout]].
    rewrite Hrun in Hrun2. inversion Hrun2; subst. auto.
  - intros Hn s rate.
    destruct (bar_count_of_rate (sweep_trial name s n_samples alpha bandwidth)
                n_trials Hn) as [k [Hk Hrange]].
    exists k. fold (sweep_rate name n_samples n_trials bandwidth alpha s) in Hk.
    fold rate in Hk.
    assert (Hbar : bar_of rate = str_mul "#" k) by (unfold bar_of; now rewrite Hk).
    repeat split; try assumption; try lia.
    rewrite Hbar. unfold str_mul. rewrite str_repeat_length. lia.
Qed.

Lemma sweep_returns_one_row_per_strength_witness :
  exists w',
    @power_curve_sweep Sample.numpy Sample.regression Sample.formatting
      "white" [0; 0.5; 2]%float 40 40 0.1 0.05 Sample.world0 = (Ok Run.points, w') /\
    List.length (stdout w') = 3%nat.
Proof.
  pose proof (pair_of_fst _ _ sample_sweep) as E.
  eexists. split; [exact E|].
  destruct (sweep_returns_one_row_per_strength
              Sample.numpy Sample.regression Sample.formatting
              "white" [0; 0.5; 2]%float 40 40 0.1 0.05 Sample.world0)
    as [_ [Hrows _]].
  destruct (Hrows _ _ E) as [_ Hout]. rewrite Hout. reflexivity.
Defined.

(** X8.  [power_curve] returns exactly when every one of the 200 trials
    decides at each of the seven strengths.  It then has written its
    seven heading lines, one row for each strength from 0.0 to 2.0 in
    order, and its three closing lines.  In every row the bar has one
    "#" for every five detections: the two roundings of
    [int(detections / 200 * 40)] never lose a character. *)
Theorem power_curve_writes_the_whole_table :
  forall (NP : Numpy) (KR : KernelRegression) (FMT : Formatting)
         (name : string) (w : world),
    let strengths := [0.0; 0.25; 0.5; 0.75; 1.0; 1.5; 2.0]%float in
    ((exists pts w', power_curve name w = (Ok pts, w'))
     <-> forallb (sweep_decides name 200 200 0.1 0.05) strengths = true) /\
    (forall pts w',
        power_curve name w = (Ok pts, w') ->
        pts = map (fun s => (s, sweep_rate name 200 200 0.1 0.05 s)) strengths /\
        stdout w'
        = (stdout w
             ++ [ ((nl ++ str_repeat "=" 60) ++ nl)%string;
                  (("POWER CURVE FOR " ++ upper name) ++ nl)%string;
                  (str_repeat "=" 60 ++ nl)%string;
                  ((nl ++ "Strength = 0 means constant variance (should reject ~5%)")
                     ++ nl)%string;
                  ("Strength = 1 means variance doubles from x=0 to x=1" ++ nl)%string;
                  ((nl ++ ljust 12 "Strength" ++ " " ++ ljust 20 "Detection Rate"
                       ++ " " ++ "Bar") ++ nl)%string;
                  (str_repeat "-" 50 ++ nl)%string ]
             ++ map (curve_line name 200 200 0.1 0.05) strengths
             ++ [ (str_repeat "-" 50 ++ nl)%string;
                  ("Note: A well-calibrated test has ~5% at strength=0," ++ nl)%string;
                  ("      increasing smoothly to >95% at high strength." ++ nl)%string ])%list) /\
    (forall s,
        let detections := tally (sweep_trial name s 200 0.05 0.1) (range 200) in
        0 <= detections <= 200 /\
        bar_of (sweep_rate name 200 200 0.1 0.05 s) = str_mul "#" (detections / 5) /\
        String.length (bar_of (sweep_rate name 200 200 0.1 0.05 s))
        = Z.to_nat (detections / 5)).
Proof.
  intros NP KR FMT name w strengths.
  split; [apply power_curve_returns_iff|split].
  - intros pts w' Hrun. rewrite power_curve_unfold in Hrun. fold strengths in Hrun.
    match type of Hrun with context [power_curve_sweep _ _ _ _ _ _ ?w1] =>
      destruct (power_curve_sweep name strengths 200 200 0.1 0.05 w1)
        as [[pts1|e] w2] eqn:Hsweep end; [|discriminate].
    inversion Hrun; subst pts1 w'. clear Hrun.
    pose proof (power_curve_sweep_ok_inv _ _ _ _ _ _ _ _ _ Hsweep) as [Hpts Hall].
    match type of Hsweep with context [power_curve_sweep _ _ _ _ _ _ ?w1] =>
      destruct (power_curve_sweep_completes name 200 200 0.1 0.05 strengths w1
                  ltac:(lia) Hall) as [w3 [Hsweep3 Hout]] end.
    assert (Hw : w3 = w2) by congruence. subst w3.
    split; [exact Hpts|].
    cbn [write stdout]. rewrite Hout. cbn [write stdout].
    rewrite <- !app_assoc. reflexivity.
  - intros s detections.
    pose proof (tally_bounds (sweep_trial name s 200 0.05 0.1) (range 200)) as Hb.
    rewrite range_length in Hb. fold detections in Hb.
    assert (Hd : 0 <= detections <= 200) by lia.
    split; [exact Hd|].
    assert (Hbar : bar_of (sweep_rate name 200 200 0.1 0.05 s)
                   = str_mul "#" (detections / 5)).
    { unfold bar_of, sweep_rate. fold detections. now rewrite bar_count_200. }
    split; [exact Hbar|].
    rewrite Hbar. unfold str_mul. apply str_repeat_length.
Qed.

(** ** The whole suite *)

Section SuiteOutput.

Context {NP : Numpy} {KR : KernelRegression} {FMT : Formatting}.

Variables (n_samples : nat) (n_trials : Z) (alpha bandwidth : float).



End SuiteOutput.

(** [run_full_calibration], step by step, when it returns. *)
Lemma run_full_calibration_steps {NP : Numpy} {KR : KernelRegression}
    {FMT : Formatting} (w : world) results w' :
  run_full_calibration w = (Ok results, w') ->
  exists w1,
    for_each tests (fun name results =>
      result <- calibrate_test name 200 500 0.05 0.1 ;;
      ret (results ++ [result])%list) []
      (write [ ((nl ++ str_repeat "=" 60) ++ nl)%string;
               ("HETEROSCEDASTICITY TEST CALIBRATION SUITE" ++ nl)%string;
               (str_repeat "=" 60 ++ nl)%string;
               ((nl ++ "Benchmark: test calibration") ++ nl)%string;
               ("- Nominal Size: False positive rate should be 4-7% at alpha=0.05"
                  ++ nl)%string;
               ("- Power: Detection rate should be >80% for moderate effect"
                  ++ nl)%string;
               ((nl ++ "Challenge: Nonlinear mean (sin wave) with constant variance")
                  ++ nl)%string;
               ("- Naive tests mistake the curve for heteroscedasticity" ++ nl)%string;
               ("- Dette-Munk-Wagner is designed to handle this case" ++ nl)%string ] w)
    = (Ok results, w1) /\
    analysis results
      (write ([ ((nl ++ str_repeat "=" 60) ++ nl)%string;
                ("CALIBRATION SUMMARY" ++ nl)%string;
                (str_repeat "=" 60 ++ nl)%string;
                ((nl ++ ljust 25 "Test" ++ " " ++ ljust 12 "Size" ++ " "
                     ++ ljust 12 "Power" ++ " " ++ "Overall") ++ nl)%string;
                (str_repeat "-" 60 ++ nl)%string ]
                ++ map (fun r => (summary_line r ++ nl)%string) results
                ++ [ (str_repeat "-" 60 ++ nl)%string;
                     ((nl ++ str_repeat "=" 60) ++ nl)%string;
                     ("ANALYSIS" ++ nl)%string;
                     (str_repeat "=" 60 ++ nl)%string ])%list w1)
    = (Ok tt, w').
Proof.
  intros Hrun. unfold run_full_calibration in Hrun.
  rewrite !bind_print in Hrun. rewrite !write_write in Hrun.
  apply bind_ok_inv in Hrun as [rs [w1 [Hloop Hrest]]].
  rewrite !bind_print in Hrest. rewrite !write_write in Hrest.
  apply bind_ok_inv in Hrest as [u [w2 [Hsum Hrest]]].
  rewrite print_each in Hsum. inversion Hsum; subst w2. clear Hsum.
  rewrite !bind_print in Hrest. rewrite !write_write in Hrest.
  apply bind_ok_inv in Hrest as [u2 [w3 [Han Hret]]].
  unfold ret in Hret. assert (Hres : rs = results) by congruence.
  assert (Hw3 : w3 = w') by congruence. clear Hret. subst w3.
  rewrite Hres in Hloop, Han. clear Hres. destruct u2.
  exists w1. split; [exact Hloop|].
  exact Han.
Qed.



(** ** The generator after a call *)

Section GeneratorFacts.

Context {NP : Numpy} {KR : KernelRegression} {FMT : Formatting}.

Lemma last_range n d : 0 < n -> last (range n) d = n - 1.
Proof.
  intros Hn. unfold range.
  replace (Z.to_nat n) with (S (Z.to_nat (n - 1))) by lia.
  rewrite seq_S, map_app. cbn [map]. rewrite last_last. lia.
Qed.

Lemma range_nonempty n : 0 < n -> range n <> [].
Proof.
  intros Hn E. pose proof (range_length n) as H. rewrite E in H. cbn in H. lia.
Qed.

(** A loop whose body always leaves the generator in a state of its own
    ends in the state of its last pass. *)
Lemma for_each_rng {A S : Type} (body : A -> S -> M S) (g : A -> rng_state) :
  (forall x acc w a w1, body x acc w = (Ok a, w1) -> rng w1 = g x) ->
  forall l acc w a w' d,
    l <> [] -> for_each l body acc w = (Ok a, w') -> rng w' = g (last l d).
Proof.
  intros Hbody. induction l as [|x r IH]; intros acc w a w' d Hne H; [congruence|].
  cbn [for_each] in H. apply bind_ok_inv in H as [a1 [w1 [Hx Hr]]].
  destruct r as [|y r'].
  - cbn in Hr. inversion Hr; subst. cbn. eapply Hbody. exact Hx.
  - change (last (x :: y :: r') d) with (last (y :: r') d).
    eapply IH; [discriminate | exact Hr].
Qed.

Variables (name : string) (n_samples : nat) (alpha bandwidth : float).

Lemma size_arm_rng n_trials w fp w' :
  0 < n_trials ->
  size_arm name n_samples n_trials alpha bandwidth w = (Ok fp, w') ->
  rng w' = seeded_state n_samples (n_trials - 1).
Proof.
  intros Hn H. unfold size_arm in H.
  apply (for_each_rng _ (fun t => seeded_state n_samples (size_arm_seed t)))
    with (d := 0) in H.
  - rewrite H, last_range by assumption. reflexivity.
  - clear. intros t acc w a w1 H.
    rewrite (bind_ok _ _ _ _ _ (generate_nonlinear_homoscedastic_eq _ _ _)) in H.
    destruct (homoscedastic_data n_samples (size_arm_seed t)) as [X y].
    unfold bind, lift, try_except, ret, print in H.
    destruct (fit bandwidth X y) as [m|e]; [|discriminate].
    destruct (heteroscedasticity_test m X y name alpha) as [r|e];
      [destruct (is_heteroscedastic r)|]; inversion H; reflexivity.
  - now apply range_nonempty.
Qed.

Lemma power_arm_rng n_trials w tp w' :
  0 < n_trials ->
  power_arm name n_samples n_trials alpha bandwidth w = (Ok tp, w') ->
  rng w' = seeded_state n_samples (n_trials + 99999).
Proof.
  intros Hn H. unfold power_arm in H.
  apply (for_each_rng _ (fun t => seeded_state n_samples (power_arm_seed t)))
    with (d := 0) in H.
  - rewrite H, last_range by assumption. unfold power_arm_seed. f_equal. lia.
  - clear. intros t acc w a w1 H.
    rewrite (bind_ok _ _ _ _ _ (generate_trumpet_eq _ _ _ _)) in H.
    destruct (trumpet_data n_samples (power_arm_seed t) 1) as [X y].
    unfold bind, lift, try_except, ret in H.
    destruct (fit bandwidth X y) as [m|e]; [|discriminate].
    destruct (heteroscedasticity_test m X y name alpha) as [r|e];
      [destruct (is_heteroscedastic r)|]; inversion H; reflexivity.
  - now apply range_nonempty.
Qed.

Lemma sweep_arm_rng strength n_trials w d w' :
  0 < n_trials ->
  sweep_arm name strength n_samples n_trials alpha bandwidth w = (Ok d, w') ->
  rng w' = seeded_state n_samples (n_trials - 1).
Proof.
  intros Hn H. unfold sweep_arm in H.
  apply (for_each_rng _ (fun t => seeded_state n_samples t)) with (d := 0) in H.
  - rewrite H, last_range by assumption. reflexivity.
  - clear. intros t acc w a w1 H.
    apply bind_ok_inv in H as [[X y] [w2 [Hgen H]]].
    assert (Hw2 : rng w2 = seeded_state n_samples t).
    { destruct (strength =? 0)%float.
      - rewrite generate_nonlinear_homoscedastic_eq in Hgen.
        inversion Hgen; reflexivity.
      - rewrite generate_trumpet_eq in Hgen. inversion Hgen; reflexivity. }
    unfold bind, lift, ret in H.
    destruct (fit bandwidth X y) as [m|e]; [|discriminate].
    destruct (heteroscedasticity_test m X y name alpha) as [r|e]; [|discriminate].
    destruct (is_heteroscedastic r); inversion H; subst; exact Hw2.
  - now apply range_nonempty.
Qed.

Lemma calibrate_test_rng n_trials w r w' :
  0 < n_trials ->
  calibrate_test name n_samples n_trials alpha bandwidth w = (Ok r, w') ->
  rng w' = seeded_state n_samples (n_trials + 99999).
Proof.
  intros Hn H. rewrite calibrate_test_unfold in H.
  destruct (size_arm _ _ _ _ _ _) as [[fp|e] w2]; [|discriminate].
  destruct (int_truediv fp n_trials) as [es|e]; [|discriminate].
  destruct (power_arm _ _ _ _ _ _) as [[tp|e] w4] eqn:Hp; [|discriminate].
  destruct (int_truediv tp n_trials) as [pw|e]; [|discriminate].
  inversion H; subst. cbn [write rng].
  eapply power_arm_rng; eassumption.
Qed.

Lemma power_curve_sweep_rng strengths n_trials w pts w' :
  0 < n_trials -> strengths <> [] ->
  power_curve_sweep name strengths n_samples n_trials bandwidth alpha w = (Ok pts, w') ->
  rng w' = seeded_state n_samples (n_trials - 1).
Proof.
  intros Hn Hne H. unfold power_curve_sweep in H.
  apply (for_each_rng _ (fun _ => seeded_state n_samples (n_trials - 1)))
    with (d := 0%float) in H; [exact H | | exact Hne].
  clear - Hn. intros s acc w a w1 H.
  apply bind_ok_inv in H as [d [w2 [Harm H]]].
  apply sweep_arm_rng in Harm; [|assumption].
  unfold bind, lift, print, ret in H.
  destruct (int_truediv d n_trials) as [rate|e]; [|discriminate].
  destruct (int_of_float (rate * 40)%float) as [k|e]; [|discriminate].
  inversion H; subst. exact Harm.
Qed.

End GeneratorFacts.

Section ScriptFacts.

Context {NP : Numpy} {KR : KernelRegression} {FMT : Formatting}.

Lemma analysis_rng results w u w' :
  analysis results w = (Ok u, w') -> rng w' = rng w.
Proof.
  intros H. destruct (passing_tests results) as [|p ps] eqn:E.
  - rewrite (analysis_none_pass results w E) in H.
    assert (Hw : w' = write (no_pass_lines results) w) by congruence.
    now subst w'.
  - assert (Hne : passing_tests results <> []) by (rewrite E; discriminate).
    destruct (max_by_spec margin _ Hne) as [best [Hbest _]].
    rewrite (analysis_some_pass results w best Hne Hbest) in H.
    assert (Hw : w' = write (best_lines best) w) by congruence.
    now subst w'.
Qed.

Lemma run_full_calibration_rng w results w' :
  run_full_calibration w = (Ok results, w') -> rng w' = seeded_state 200 100499.
Proof.
  intros Hrun. apply run_full_calibration_steps in Hrun as [w1 [Hloop Han]].
  apply analysis_rng in Han. rewrite Han. cbn [write rng].
  apply (for_each_rng _ (fun _ => seeded_state 200 100499))
    with (d := EmptyString) in Hloop; [exact Hloop | | discriminate].
  intros name acc w0 a w2 H.
  apply bind_ok_inv in H as [r [w3 [Hcal Hret]]].
  apply calibrate_test_rng in Hcal; [|lia].
  unfold ret in Hret. assert (Hw : w3 = w2) by congruence. subst w3. exact Hcal.
Qed.

Lemma power_curve_rng name w pts w' :
  power_curve name w = (Ok pts, w') -> rng w' = seeded_state 200 199.
Proof.
  intros Hrun. rewrite power_curve_unfold in Hrun.
  destruct (power_curve_sweep _ _ _ _ _ _ _) as [[pts1|e] w1] eqn:Hsweep;
    [|discriminate].
  apply power_curve_sweep_rng in Hsweep; [|lia|discriminate].
  match type of Hrun with (_, ?W) = (_, _) => assert (Hw : w' = W) by congruence end.
  subst w'. cbn [write rng]. exact Hsweep.
Qed.

(** The script, step by step, when it returns. *)
Lemma main_steps w w' :
  main w = (Ok tt, w') ->
  exists results w1 pts,
    run_full_calibration w = (Ok results, w1) /\
    power_curve "dette_munk_wagner" (write [(nl ++ nl)%string] w1) = (Ok pts, w').
Proof.
  intros H. unfold main in H.
  apply bind_ok_inv in H as [results [w1 [Hsuite H]]].
  rewrite bind_print in H.
  apply bind_ok_inv in H as [pts [w2 [Hcurve Hret]]].
  unfold ret in Hret. assert (Hw : w2 = w') by congruence. subst w2.
  exists results, w1, pts. auto.
Qed.

End ScriptFacts.

(** X10.  The script leaves numpy's process-wide generator in a state of
    its own, whatever state a caller had put it in.  After a call of
    [calibrate_test] with [n_trials > 0] that returns, the generator is
    in the state reached by seeding it with [n_trials + 99999] (the last
    seed of the power arm) and drawing [n_samples] deviates; after
    [run_full_calibration] it is the state of the seed 100499 after 200
    draws; after [power_curve], and after the whole script, that of the
    seed 199 after 200 draws.  (The calls into the regression package are
    functions of their arguments: they draw nothing from the generator.) *)
Theorem calls_leave_the_generator_reseeded :
  forall (NP : Numpy) (KR : KernelRegression) (FMT : Formatting),
    (forall name n_samples n_trials alpha bandwidth (w : world) r w',
        0 < n_trials ->
        calibrate_test name n_samples n_trials alpha bandwidth w = (Ok r, w') ->
        rng w' = snd (Np.draws n_samples (random_seed (n_trials + 99999)))) /\
    (forall (w : world) results w',
        run_full_calibration w = (Ok results, w') ->
        rng w' = snd (Np.draws 200 (random_seed 100499))) /\
    (forall name (w : world) pts w',
        power_curve name w = (Ok pts, w') ->
        rng w' = snd (Np.draws 200 (random_seed 199))) /\
    (forall (w w' : world),
        main w = (Ok tt, w') ->
        rng w' = snd (Np.draws 200 (random_seed 199))).
Proof.
  intros NP KR FMT. split; [|split; [|split]].
  - intros name n_samples n_trials alpha bandwidth w r w' Hn Hrun.
    exact (calibrate_test_rng name n_samples alpha bandwidth n_trials w r w' Hn Hrun).
  - intros w results w' Hrun. exact (run_full_calibration_rng w results w' Hrun).
  - intros name w pts w' Hrun. exact (power_curve_rng name w pts w' Hrun).
  - intros w w' Hrun.
    destruct (main_steps w w' Hrun) as [results [w1 [pts [_ Hcurve]]]].
    exact (power_curve_rng _ _ _ _ Hcurve).
Qed.

Lemma calls_leave_the_generator_reseeded_witness :
  exists w',
    @calibrate_test Sample.numpy Sample.regression Sample.formatting
      "white" 40 40 0.05 0.1 Sample.world0 = (Ok Run.result, w') /\
    rng w' = snd (Np.draws 40 (random_seed 100039)).
Proof.
  pose proof (pair_of_fst _ _ sample_calibration) as E.
  eexists. split; [exact E|].
  destruct (calls_leave_the_generator_reseeded
              Sample.numpy Sample.regression Sample.formatting) as [Hcal _].
  exact (Hcal _ _ 40 _ _ _ _ _ ltac:(lia) E).
Defined.


(** ** The exceptions that can escape *)

Section EscapeFacts.

Context {NP : Numpy} {KR : KernelRegression} {FMT : Formatting}.

Variables (n_samples : nat) (n_trials : Z) (alpha bandwidth : float).




End EscapeFacts.



